(** * ptsim: a page-table simulator

    Shallow embedding of [src/ptsim.c].  The simulated RAM is the global
    array [unsigned char mem[MEM_SIZE]]; every function of the C file is a
    function on that array here.  An access outside the array is undefined
    behaviour in C: the embedding makes it explicit, every read and write
    is bounds-checked and the enclosing function returns [None] when one
    falls outside [0, MEM_SIZE).  What the C code prints (the loaded byte,
    the physical address, the out-of-memory diagnostics) is returned as a
    value.

    An [int] is a [Z].  The arithmetic of the source stays far from the
    bounds of [int] on every value read from the array (a byte shifted by
    eight bits); the one sum on an argument, [64 + proc_num], indexes the
    array, so that a value not representable is outside the array as
    well.  [>>] on a negative [int] is taken to be the arithmetic shift. *)

From stdpp Require Import base option numbers list.
From stdpp Require Import strings pretty.
From Stdlib Require Import Ascii.

Local Open Scope Z_scope.

(** ** Constants ([#define]s of the source) *)

Definition MEM_SIZE : Z := 16384.
Definition PAGE_SIZE : Z := 256.
Definition PAGE_COUNT : Z := 64.
Definition PAGE_SHIFT : Z := 8.

(** ** Simulated RAM *)

(** [unsigned char mem[MEM_SIZE]]: a list of bytes, each a [Z] in
    [0, 256). *)
Abbreviation memory := (list Z).

Definition in_mem (a : Z) : Prop := 0 ≤ a < MEM_SIZE.

Definition is_byte (b : Z) : Prop := 0 ≤ b < 256.

(** The array has [MEM_SIZE] cells and every cell holds a byte. *)
Definition mem_ok (m : memory) : Prop :=
  length m = Z.to_nat MEM_SIZE ∧ Forall is_byte m.

(** [mem[a]] as an rvalue. *)
Definition rd (m : memory) (a : Z) : option Z :=
  if bool_decide (in_mem a) then m !! Z.to_nat a else None.

(** [mem[a] = v]: the conversion of the [int] [v] to [unsigned char]
    keeps its low eight bits. *)
Definition wr (m : memory) (a v : Z) : option memory :=
  if bool_decide (in_mem a) then Some (<[Z.to_nat a := v `mod` 256]> m)
  else None.

(** ** The functions of ptsim.c *)

(** [(page << PAGE_SHIFT) | offset].  The source calls it with a byte
    for [page], so that the shift stays within [int]. *)
Definition get_address (page offset : Z) : Z :=
  Z.lor (Z.shiftl page PAGE_SHIFT) offset.

(** The array after [memset(mem, 0, MEM_SIZE)]. *)
Definition zero_mem : memory := replicate (Z.to_nat MEM_SIZE) 0.

(** [memset(mem, 0, MEM_SIZE); mem[0] = 1]. *)
Definition initialize_mem : memory := <[0%nat := 1]> zero_mem.

Definition get_phys_page (page_table_page vpage : Z) (m : memory) : option Z :=
  rd m (page_table_page * PAGE_SIZE + vpage).

(** The scan of [get_page]: [rem] is the number of iterations the [for]
    loop has left, [i] its index. *)
Fixpoint get_page_loop (rem : nat) (i : Z) (m : memory) : option (memory * Z) :=
  match rem with
  | O => Some (m, 255)
  | S rem' =>
      b ← rd m i;
      if bool_decide (b = 0) then m' ← wr m i 1; Some (m', i)
      else get_page_loop rem' (i + 1) m
  end.

Definition get_page (m : memory) : option (memory * Z) :=
  get_page_loop (Z.to_nat PAGE_COUNT) 0 m.

(** The three ways [new_process] returns: after the loop, after the
    page-table diagnostic, after the data-page diagnostic (with the loop
    index at which it happened). *)
Inductive np_exit : Type :=
  | NpDone
  | NpOomPageTable
  | NpOomDataPage (vpage : Z).

(** The data-page loop of [new_process]. *)
Fixpoint np_loop (rem : nat) (page_table vpage : Z) (m : memory)
  : option (memory * np_exit) :=
  match rem with
  | O => Some (m, NpDone)
  | S rem' =>
      '(m1, new_page) ← get_page m;
      if bool_decide (new_page = 255) then Some (m1, NpOomDataPage vpage)
      else
        m2 ← wr m1 (get_address page_table vpage) new_page;
        np_loop rem' page_table (vpage + 1) m2
  end.

Definition new_process (proc_num page_count : Z) (m : memory)
  : option (memory * np_exit) :=
  '(m1, page_table) ← get_page m;
  if bool_decide (page_table = 255) then Some (m1, NpOomPageTable)
  else
    m2 ← wr m1 (64 + proc_num) page_table;
    np_loop (Z.to_nat page_count) page_table 0 m2.

Definition get_page_table (proc_num : Z) (m : memory) : option Z :=
  rd m (proc_num + 64).

Definition get_physical_addr (proc_num virt_addr : Z) (m : memory) : option Z :=
  let virt_page := Z.shiftr virt_addr 8 in
  let offset := Z.land virt_addr 255 in
  page_table ← get_page_table proc_num m;
  let page_table_page := get_address page_table virt_page in
  phys_page ← rd m page_table_page;
  Some (Z.lor (Z.shiftl phys_page 8) offset).

Definition deallocate_page (page : Z) (m : memory) : option memory :=
  wr m page 0.

(** The loop of [kill_process]. *)
Fixpoint kp_loop (rem : nat) (page_table i : Z) (m : memory) : option memory :=
  match rem with
  | O => Some m
  | S rem' =>
      let ptr_addr := get_address page_table i in
      b ← rd m ptr_addr;
      m' ← (if bool_decide (b ≠ 0) then
              page ← rd m ptr_addr; deallocate_page page m
            else Some m);
      kp_loop rem' page_table (i + 1) m'
  end.

Definition kill_process (proc_num : Z) (m : memory) : option memory :=
  page_table ← get_page_table proc_num m;
  m' ← kp_loop (Z.to_nat PAGE_COUNT) page_table 0 m;
  deallocate_page page_table m'.

(** [store_value] returns the new memory and the physical address it
    prints. *)
Definition store_value (proc_num virt_addr value : Z) (m : memory)
  : option (memory * Z) :=
  phys_addr ← get_physical_addr proc_num virt_addr m;
  m' ← wr m phys_addr value;
  Some (m', phys_addr).

(** [load_value] returns the physical address and the byte it prints. *)
Definition load_value (proc_num virt_addr : Z) (m : memory) : option (Z * Z) :=
  phys_addr ← get_physical_addr proc_num virt_addr m;
  value ← rd m phys_addr;
  Some (phys_addr, value).

(** ** Drivers used in the statements *)

(** [n] consecutive calls of [get_page], with the values they return. *)
Fixpoint get_pages (n : nat) (m : memory) : option (memory * list Z) :=
  match n with
  | O => Some (m, [])
  | S n' =>
      '(m1, r) ← get_page m;
      '(m2, rs) ← get_pages n' m1;
      Some (m2, r :: rs)
  end.

(** The commands of [main] that reach the core. *)
Inductive command : Type :=
  | Cnp (proc_num page_count : Z)
  | Ckp (proc_num : Z)
  | Csb (proc_num virt_addr value : Z)
  | Clb (proc_num virt_addr : Z).

Definition exec (c : command) (m : memory) : option memory :=
  match c with
  | Cnp p n => fst <$> new_process p n m
  | Ckp p => kill_process p m
  | Csb p a x => fst <$> store_value p a x m
  | Clb p a => _ ← load_value p a m; Some m
  end.

(** The loop of [main] over a list of commands. *)
Fixpoint run (cs : list command) (m : memory) : option memory :=
  match cs with
  | [] => Some m
  | c :: cs' => m' ← exec c m; run cs' m'
  end.

(** The memory after [main] has run the commands [cs]. *)
Definition state_after (cs : list command) : memory :=
  default zero_mem (run cs initialize_mem).

(** ** Predicates of the statements *)

(** Every usage byte below [b] is non-zero. *)
Definition full_below (b : Z) (m : memory) : Prop :=
  ∀ k, 0 ≤ k < b → k < PAGE_COUNT → rd m k ≠ Some 0.

(** No usage byte is zero: [get_page] has nothing to hand out. *)
Definition exhausted (m : memory) : Prop := full_below PAGE_COUNT m.

(** A cell that holds a page number. *)
Definition small_at (a : Z) (m : memory) : Prop :=
  ∃ s, rd m a = Some s ∧ 0 ≤ s < PAGE_COUNT.

(** What bounds the index [vpage] of the data-page loop.  With a page
    table [t] other than page 0 the loop writes outside the usage table,
    and each page [get_page] hands out lies above [vpage + 1].  With
    [t = 0] the loop writes the page numbers into the usage table itself:
    the bytes below [vpage] are then non-zero.  The other two cases are
    the first steps after the slot write of [new_process] has cleared the
    usage byte of page 0 again (process number -64). *)
Definition np_bound (t v : Z) (m : memory) : Prop :=
  (1 ≤ t ∧ full_below (v + 2) m)
  ∨ (t = 0 ∧ (full_below (Z.max v 1) m
              ∨ (v ≤ 1 ∧ rd m 0 = Some 0)
              ∨ (v = 2 ∧ rd m 0 ≠ Some 0 ∧ rd m 1 = Some 0))).

(** The cells the data-page loop may change: the usage table and the
    first [PAGE_COUNT] cells of the page table [t]. *)
Definition np_frame (t : Z) (m0 m : memory) : Prop :=
  ∀ a, ¬ (0 ≤ a < PAGE_COUNT) →
       ¬ (t * PAGE_SIZE ≤ a < t * PAGE_SIZE + PAGE_COUNT) →
       rd m a = rd m0 a.

(** Invariant of the data-page loop, at index [v], started from [m0]. *)
Record np_inv (t : Z) (m0 : memory) (v : Z) (m : memory) : Prop := {
  np_inv_ok : mem_ok m;
  np_inv_index : 0 ≤ v ≤ PAGE_COUNT;
  np_inv_bound : np_bound t v m;
  np_inv_frame : np_frame t m0 m;
  np_inv_small : ∀ a, small_at a m0 → small_at a m
}.

(** The number of data pages [new_process] has mapped when it returns:
    the iterations of its loop that ran to their end. *)
Definition np_mapped (page_count : Z) (e : np_exit) : Z :=
  match e with
  | NpDone => Z.max 0 page_count
  | NpOomPageTable => 0
  | NpOomDataPage vpage => vpage
  end.

(** What the data-page loop has built when it is at index [v], started
    from [ms]: page 0 is in use, no page in use at the start has become
    free, and entry [u] of the page table [t], for every [u < v], is a
    page that was free at the start and is in use now. *)
Definition np_entries (t : Z) (ms : memory) (v : Z) (m : memory) : Prop :=
  rd m 0 ≠ Some 0 ∧
  (∀ k, 0 ≤ k < PAGE_COUNT → rd ms k ≠ Some 0 → rd m k ≠ Some 0) ∧
  ∀ u, 0 ≤ u < v →
    ∃ d, rd m (t * PAGE_SIZE + u) = Some d ∧ 1 ≤ d < PAGE_COUNT ∧
         rd ms d = Some 0 ∧ rd m d ≠ Some 0.

(** Every usage byte is 0 or 1, the two values the allocator writes. *)
Definition usage_01 (m : memory) : Prop :=
  ∀ k, 0 ≤ k < PAGE_COUNT → rd m k = Some 0 ∨ rd m k = Some 1.

(** A cell after the loop of [kill_process] over a page table other than
    page 0: as before, or cleared, and then in page 0 but not its first
    cell. *)
Definition kept_or_freed (m m' : memory) : Prop :=
  ∀ a, rd m' a = rd m a ∨ (rd m' a = Some 0 ∧ 0 < a < PAGE_SIZE).

(** A process number whose slot [mem[64 + p]] lies in page zero, after
    the usage table (the source: "Set this process's page table pointer in
    zero page"). *)
Definition proc_in_zero_page (p : Z) : Prop := 0 ≤ p ∧ 64 + p < PAGE_SIZE.

(** The commands that cannot clear the usage byte of page 0: every
    [np] and [lb], a [kp] of a process whose slot byte is not 0, and an
    [sb] that does not store a zero byte at physical address 0. *)
Definition keeps_page0 (c : command) (m : memory) : Prop :=
  match c with
  | Cnp _ _ => True
  | Ckp p => get_page_table p m ≠ Some 0
  | Csb p a x => ¬ (get_physical_addr p a m = Some 0 ∧ x `mod` 256 = 0)
  | Clb _ _ => True
  end.

(** The memories [main] reaches from [initialize_mem] by such commands. *)
Inductive reachable_keeping_page0 : memory → Prop :=
  | reach_init : reachable_keeping_page0 initialize_mem
  | reach_step m c m' :
      reachable_keeping_page0 m → keeps_page0 c m → exec c m = Some m' →
      reachable_keeping_page0 m'.

(** ** Predicates of the further properties *)

(** The free pages, in the order in which [get_page] hands them out. *)
Definition free_pages (m : memory) : list Z :=
  filter (λ j, rd m j = Some 0) (seqZ 0 PAGE_COUNT).

(** Process [p] owns the page table [t] and, for its virtual pages
    [0 .. length ds - 1], the data pages [ds]: its slot in page zero names
    [t], entry [i] of page [t] names the [i]-th page of [ds], and all
    these pages are marked in use. *)
Definition owns (p t : Z) (ds : list Z) (m : memory) : Prop :=
  proc_in_zero_page p ∧ 1 ≤ t < PAGE_COUNT ∧
  get_page_table p m = Some t ∧ rd m t ≠ Some 0 ∧
  Z.of_nat (length ds) ≤ PAGE_SIZE ∧
  ∀ i d, ds !! i = Some d →
         get_phys_page t (Z.of_nat i) m = Some d ∧
         1 ≤ d < PAGE_COUNT ∧ d ≠ t ∧ rd m d ≠ Some 0.

(** The bytes [kill_process] clears for a page table [t]: the byte at
    address [t], and the byte at every address that is a non-zero entry
    among the first [PAGE_COUNT] entries of page [t]. *)
Definition named_by (t : Z) (m : memory) (a : Z) : Prop :=
  a = t ∨ (a ≠ 0 ∧ ∃ u, 0 ≤ u < PAGE_COUNT ∧ rd m (t * PAGE_SIZE + u) = Some a).

(** ** Reports and [main] *)

(** The newline character. *)
Definition nl : string := String (Ascii.ascii_of_nat 10) "".

(** One cell of the free map: [mem[addr] == 0 ? '.' : '#']. *)
Definition free_map_cell (b : Z) : ascii :=
  if bool_decide (b = 0) then "."%char else "#"%char.

(** The loop of [print_page_free_map], with what it prints. *)
Fixpoint pfm_loop (rem : nat) (i : Z) (m : memory) : option string :=
  match rem with
  | O => Some ""
  | S rem' =>
      let addr := get_address 0 i in
      b ← rd m addr;
      let cell := free_map_cell b in
      let eol := if bool_decide (Z.rem (i + 1) 16 = 0) then nl else "" in
      out ← pfm_loop rem' (i + 1) m;
      Some (String cell (eol +:+ out))
  end.

Definition print_page_free_map (m : memory) : option string :=
  out ← pfm_loop 64 0 m;
  Some ("--- PAGE FREE MAP ---" +:+ nl +:+ out).

(** [%02x] of a value in [0, 256): two hexadecimal digits.  The values
    the source prints this way are a loop index below [PAGE_COUNT] and a
    byte of the array. *)
Definition hex_digit (n : Z) : string :=
  match n with
  | 0 => "0" | 1 => "1" | 2 => "2" | 3 => "3" | 4 => "4" | 5 => "5"
  | 6 => "6" | 7 => "7" | 8 => "8" | 9 => "9" | 10 => "a" | 11 => "b"
  | 12 => "c" | 13 => "d" | 14 => "e" | _ => "f"
  end.

Definition hex2 (n : Z) : string := hex_digit (n `div` 16) +:+ hex_digit (n `mod` 16).

(** [printf("%02x -> %02x\n", i, page)]. *)
Definition page_table_line (i page : Z) : string :=
  hex2 i +:+ " -> " +:+ hex2 page +:+ nl.

(** The loop of [print_page_table], with what it prints. *)
Fixpoint ppt_loop (rem : nat) (page_table i : Z) (m : memory) : option string :=
  match rem with
  | O => Some ""
  | S rem' =>
      let addr := get_address page_table i in
      page ← rd m addr;
      let line := if bool_decide (page ≠ 0) then page_table_line i page else "" in
      out ← ppt_loop rem' page_table (i + 1) m;
      Some (line +:+ out)
  end.

(** [%d] of an [int] is its decimal writing, [pretty] of stdpp. *)
Definition print_page_table (proc_num : Z) (m : memory) : option string :=
  let header := "--- PROCESS " +:+ pretty proc_num +:+ " PAGE TABLE ---" +:+ nl in
  page_table ← get_page_table proc_num m;
  out ← ppt_loop (Z.to_nat PAGE_COUNT) page_table 0 m;
  Some (header +:+ out).

(** What [new_process] prints, by the way it returns. *)
Definition np_message (proc_num : Z) (e : np_exit) : string :=
  match e with
  | NpDone => ""
  | NpOomPageTable => "OOM: proc " +:+ pretty proc_num +:+ " page table" +:+ nl
  | NpOomDataPage _ => "OOM: proc " +:+ pretty proc_num +:+ " data page" +:+ nl
  end.

(** What [store_value] and [load_value] print. *)
Definition store_message (proc_num virt_addr phys_addr value : Z) : string :=
  "Store proc " +:+ pretty proc_num +:+ ": " +:+ pretty virt_addr +:+ " => "
  +:+ pretty phys_addr +:+ ", value=" +:+ pretty value +:+ nl.

Definition load_message (proc_num virt_addr phys_addr value : Z) : string :=
  "Load proc " +:+ pretty proc_num +:+ ": " +:+ pretty virt_addr +:+ " => "
  +:+ pretty phys_addr +:+ ", value=" +:+ pretty value +:+ nl.

(** The loop of [main] over [argv[i], argv[i+1], ...], the words not yet
    read: [args] is that rest of [argv].  [atoi] is the function of the C
    library.  A command whose arguments run past the end of [argv] reads
    [argv[argc]], a null pointer, or beyond: no result.  The loop returns
    the memory and what was printed. *)
Fixpoint main_loop (atoi : string → Z) (args : list string) (m : memory)
  : option (memory * string) :=
  match args with
  | [] => Some (m, "")
  | word :: rest =>
      if bool_decide (word = "np") then
        match rest with
        | a1 :: a2 :: rest' =>
            let proc_num := atoi a1 in
            let pages := atoi a2 in
            '(m1, e) ← new_process proc_num pages m;
            '(m2, out) ← main_loop atoi rest' m1;
            Some (m2, np_message proc_num e +:+ out)
        | _ => None
        end
      else if bool_decide (word = "pfm") then
        text ← print_page_free_map m;
        '(m2, out) ← main_loop atoi rest m;
        Some (m2, text +:+ out)
      else if bool_decide (word = "ppt") then
        match rest with
        | a1 :: rest' =>
            text ← print_page_table (atoi a1) m;
            '(m2, out) ← main_loop atoi rest' m;
            Some (m2, text +:+ out)
        | _ => None
        end
      else if bool_decide (word = "kp") then
        match rest with
        | a1 :: rest' =>
            m1 ← kill_process (atoi a1) m;
            main_loop atoi rest' m1
        | _ => None
        end
      else if bool_decide (word = "sb") then
        match rest with
        | a1 :: a2 :: a3 :: rest' =>
            let proc_num := atoi a1 in
            let virt_addr := atoi a2 in
            let value := atoi a3 in
            '(m1, phys_addr) ← store_value proc_num virt_addr value m;
            '(m2, out) ← main_loop atoi rest' m1;
            Some (m2, store_message proc_num virt_addr phys_addr value +:+ out)
        | _ => None
        end
      else if bool_decide (word = "lb") then
        match rest with
        | a1 :: a2 :: rest' =>
            let proc_num := atoi a1 in
            let virt_addr := atoi a2 in
            '(phys_addr, value) ← load_value proc_num virt_addr m;
            '(m2, out) ← main_loop atoi rest' m;
            Some (m2, load_message proc_num virt_addr phys_addr value +:+ out)
        | _ => None
        end
      else main_loop atoi rest m
  end.

(** What a run of the program leaves: the exit status, the two output
    streams and the array. *)
Record run_result : Type := {
  exit_status : Z;
  stdout : string;
  stderr : string;
  final_mem : memory
}.

(** [main].  With [argc == 1] it prints the usage line and returns 1,
    the array still as the loader zeroed it; otherwise it initialises the
    array, runs the loop from [argv[1]] and returns 0. *)
Definition main (atoi : string → Z) (argv : list string) : option run_result :=
  if bool_decide (length argv = 1%nat) then
    Some {| exit_status := 1; stdout := "";
            stderr := "usage: ptsim commands" +:+ nl; final_mem := zero_mem |}
  else
    '(m, out) ← main_loop atoi (drop 1 argv) initialize_mem;
    Some {| exit_status := 0; stdout := out; stderr := ""; final_mem := m |}.

(** The commands that a list of words stands for, for the core: the
    reports and the words that are no command change nothing. *)
Fixpoint commands_of (atoi : string → Z) (args : list string) : list command :=
  match args with
  | [] => []
  | word :: rest =>
      if bool_decide (word = "np") then
        match rest with
        | a1 :: a2 :: rest' => Cnp (atoi a1) (atoi a2) :: commands_of atoi rest'
        | _ => []
        end
      else if bool_decide (word = "pfm") then commands_of atoi rest
      else if bool_decide (word = "ppt") then
        match rest with
        | _ :: rest' => commands_of atoi rest'
        | _ => []
        end
      else if bool_decide (word = "kp") then
        match rest with
        | a1 :: rest' => Ckp (atoi a1) :: commands_of atoi rest'
        | _ => []
        end
      else if bool_decide (word = "sb") then
        match rest with
        | a1 :: a2 :: a3 :: rest' =>
            Csb (atoi a1) (atoi a2) (atoi a3) :: commands_of atoi rest'
        | _ => []
        end
      else if bool_decide (word = "lb") then
        match rest with
        | a1 :: a2 :: rest' => Clb (atoi a1) (atoi a2) :: commands_of atoi rest'
        | _ => []
        end
      else commands_of atoi rest
  end.

(** A reading of decimal numbers for the examples: blanks, a sign, then
    digits up to the first other character, as [atoi] of the C library
    reads a number that fits an [int]. *)
Definition is_blank (c : ascii) : bool :=
  let n := Ascii.nat_of_ascii c in
  bool_decide (n = 32 ∨ 9 ≤ n ≤ 13)%nat.

Fixpoint skip_blanks (s : string) : string :=
  match s with
  | String c s' => if is_blank c then skip_blanks s' else s
  | EmptyString => s
  end.

Fixpoint read_digits (s : string) (acc : Z) : Z :=
  match s with
  | String c s' =>
      let n := Z.of_nat (Ascii.nat_of_ascii c) in
      if bool_decide (48 ≤ n ≤ 57) then read_digits s' (acc * 10 + (n - 48))
      else acc
  | EmptyString => acc
  end.

Definition atoi_decimal (s : string) : Z :=
  match skip_blanks s with
  | String "-"%char s' => - read_digits s' 0
  | String "+"%char s' => read_digits s' 0
  | s' => read_digits s' 0
  end.

(** ** Predicates of the properties of the reports *)

(** The mark of page [j] in the free map. *)
Definition page_mark (m : memory) (j : Z) : ascii :=
  if decide (rd m j = Some 0) then "."%char else "#"%char.

(** Row [k] of the free map: the marks of pages [16 k .. 16 k + 15]. *)
Definition free_map_row (m : memory) (k : Z) : string :=
  foldr (λ j s, String (page_mark m j) s) "" (seqZ (16 * k) 16).

(** The lines of the page table of a process whose virtual pages from
    [i] on are mapped to the pages [ds]. *)
Fixpoint mapping_lines (i : Z) (ds : list Z) : string :=
  match ds with
  | [] => ""
  | d :: ds' => page_table_line i d +:+ mapping_lines (i + 1) ds'
  end.

(** * Reads and writes *)

Ltac consts :=
  unfold in_mem, is_byte, MEM_SIZE, PAGE_SIZE, PAGE_COUNT, PAGE_SHIFT in *.

Lemma rd_Some m a b : rd m a = Some b → in_mem a ∧ m !! Z.to_nat a = Some b.
Proof. unfold rd. case_bool_decide; [tauto | discriminate]. Qed.

Lemma rd_in_mem m a : in_mem a → rd m a = m !! Z.to_nat a.
Proof. intros Ha. unfold rd. by rewrite bool_decide_eq_true_2. Qed.

Lemma rd_ok m a : mem_ok m → in_mem a → ∃ b, rd m a = Some b ∧ is_byte b.
Proof.
  intros [Hlen Hall] Ha. rewrite (rd_in_mem _ _ Ha).
  destruct (lookup_lt_is_Some_2 m (Z.to_nat a)) as [b Hb].
  { rewrite Hlen. unfold in_mem in Ha. lia. }
  exists b. split; [done |].
  eapply (proj1 (Forall_lookup _ _) Hall); eauto.
Qed.

Lemma rd_byte m a b : mem_ok m → rd m a = Some b → is_byte b.
Proof.
  intros Hm Hb. destruct (rd_Some _ _ _ Hb) as [Ha _].
  destruct (rd_ok m a Hm Ha) as (b' & Hb' & ?). congruence.
Qed.

Lemma wr_Some m a v m' :
  wr m a v = Some m' → in_mem a ∧ m' = <[Z.to_nat a := v `mod` 256]> m.
Proof. unfold wr. case_bool_decide; [| discriminate]. intros [= <-]. tauto. Qed.

Lemma wr_ok m a v : in_mem a → ∃ m', wr m a v = Some m'.
Proof. intros Ha. unfold wr. rewrite bool_decide_eq_true_2 by done. eauto. Qed.

Lemma mem_ok_wr m a v m' : mem_ok m → wr m a v = Some m' → mem_ok m'.
Proof.
  intros [Hlen Hall] Hw. apply wr_Some in Hw as [_ ->]. split.
  - by rewrite length_insert.
  - apply Forall_insert; [done |]. unfold is_byte. apply Z.mod_pos_bound. lia.
Qed.

Lemma rd_wr_eq m a v m' :
  mem_ok m → wr m a v = Some m' → rd m' a = Some (v `mod` 256).
Proof.
  intros [Hlen _] Hw. apply wr_Some in Hw as [Ha ->].
  rewrite (rd_in_mem _ _ Ha). apply list_lookup_insert_eq.
  rewrite Hlen. unfold in_mem in Ha. lia.
Qed.

Lemma rd_wr_ne m a v m' a' :
  wr m a v = Some m' → a' ≠ a → rd m' a' = rd m a'.
Proof.
  intros Hw Hne. apply wr_Some in Hw as [Ha ->]. unfold rd.
  case_bool_decide as Ha'; [| done].
  apply list_lookup_insert_ne. unfold in_mem in *. lia.
Qed.

Lemma mod_byte b : is_byte b → b `mod` 256 = b.
Proof. intros Hb. apply Z.mod_small. exact Hb. Qed.

(** A write of the value a cell already holds changes nothing. *)
Lemma wr_same m a v m' :
  rd m a = Some (v `mod` 256) → wr m a v = Some m' → m' = m.
Proof.
  intros Hr Hw. apply wr_Some in Hw as [_ ->].
  apply rd_Some in Hr as [_ Hr]. by apply list_insert_id.
Qed.

(** Writing twice to a cell keeps the second value. *)
Lemma wr_wr m a v w m1 m2 :
  wr m a v = Some m1 → wr m1 a w = Some m2 → wr m a w = Some m2.
Proof.
  intros H1 H2. apply wr_Some in H1 as [Ha ->]. apply wr_Some in H2 as [_ ->].
  unfold wr. rewrite bool_decide_eq_true_2 by done.
  by rewrite list_insert_insert_eq.
Qed.

(** * Address arithmetic *)

Lemma get_address_add page offset :
  0 ≤ page → 0 ≤ offset < PAGE_SIZE →
  get_address page offset = page * PAGE_SIZE + offset.
Proof.
  intros Hp Ho. unfold get_address, PAGE_SHIFT, PAGE_SIZE in *.
  rewrite Z.shiftl_mul_pow2 by lia. change (2 ^ 8) with 256.
  rewrite <- Z.lxor_lor, <- Z.add_nocarry_lxor; [done | |].
  all: apply Z.bits_inj'; intros n Hn; rewrite Z.land_spec, Z.bits_0.
  all: destruct (Z_lt_le_dec n 8) as [Hlt | Hge].
  all: try (change 256 with (2 ^ 8); rewrite Z.mul_pow2_bits_low by lia; done).
  all: assert (Z.testbit offset n = false) as ->
        by (destruct (Z.eq_dec offset 0) as [-> | ?];
            [apply Z.bits_0 | apply Z.bits_above_log2; [lia |];
             apply Z.lt_le_trans with 8; [apply Z.log2_lt_pow2; lia | lia]]).
  all: apply andb_false_r.
Qed.

Lemma get_address_0 offset : get_address 0 offset = offset.
Proof. unfold get_address. rewrite Z.shiftl_0_l. apply Z.lor_0_l. Qed.

Lemma virt_page_of v o :
  0 ≤ o < PAGE_SIZE → Z.shiftr (v * PAGE_SIZE + o) 8 = v.
Proof.
  intros Ho. unfold PAGE_SIZE in *. rewrite Z.shiftr_div_pow2 by lia.
  change (2 ^ 8) with 256. rewrite Z.add_comm, Z.div_add by lia.
  rewrite Z.div_small by lia. lia.
Qed.

Lemma offset_of v o :
  0 ≤ o < PAGE_SIZE → Z.land (v * PAGE_SIZE + o) 255 = o.
Proof.
  intros Ho. unfold PAGE_SIZE in *. change 255 with (Z.ones 8).
  rewrite Z.land_ones by lia. change (2 ^ 8) with 256.
  rewrite Z.add_comm, Z.mod_add by lia. apply Z.mod_small. lia.
Qed.

(** * The allocator *)

Lemma get_page_loop_spec rem i m :
  mem_ok m → 0 ≤ i → i + Z.of_nat rem ≤ MEM_SIZE →
  (∃ j m', i ≤ j < i + Z.of_nat rem ∧ rd m j = Some 0 ∧
           (∀ k, i ≤ k < j → rd m k ≠ Some 0) ∧
           wr m j 1 = Some m' ∧ get_page_loop rem i m = Some (m', j))
  ∨ ((∀ k, i ≤ k < i + Z.of_nat rem → rd m k ≠ Some 0) ∧
     get_page_loop rem i m = Some (m, 255)).
Proof.
  intros Hm. revert i. induction rem as [| rem IH]; intros i Hi Hle.
  - right. split; [intros k Hk; lia | done].
  - assert (in_mem i) as Hin by (unfold in_mem; lia).
    destruct (rd_ok m i Hm Hin) as (b & Hb & _).
    cbn [get_page_loop]. rewrite Hb. cbn.
    case_bool_decide as Hz.
    + subst b. destruct (wr_ok m i 1 Hin) as [m' Hw].
      left. exists i, m'. rewrite Hw. cbn.
      repeat split; try done; try lia.
    + destruct (IH (i + 1)) as [(j & m' & Hj & Hf & Hleast & Hw & Hr) | [Hnone Hr]];
        [lia | lia | |].
      * left. exists j, m'. repeat split; try done; try lia.
        intros k Hk. destruct (decide (k = i)) as [-> | ?].
        -- rewrite Hb. congruence.
        -- apply Hleast. lia.
      * right. split; [| done]. intros k Hk.
        destruct (decide (k = i)) as [-> | ?].
        -- rewrite Hb. congruence.
        -- apply Hnone. lia.
Qed.

(** What a call of [get_page] does, in the two cases of its scan. *)
Lemma get_page_spec m :
  mem_ok m →
  (∃ j m', 0 ≤ j < PAGE_COUNT ∧ rd m j = Some 0 ∧ full_below j m ∧
           wr m j 1 = Some m' ∧ get_page m = Some (m', j))
  ∨ (exhausted m ∧ get_page m = Some (m, 255)).
Proof.
  intros Hm. unfold get_page.
  destruct (get_page_loop_spec (Z.to_nat PAGE_COUNT) 0 m Hm)
    as [(j & m' & Hj & Hf & Hleast & Hw & Hr) | [Hnone Hr]].
  - lia.
  - consts. lia.
  - left. exists j, m'. repeat split; try done.
    + lia.
    + consts. lia.
    + intros k Hk _. apply Hleast. lia.
  - right. split; [| done]. intros k Hk Hk'. apply Hnone. consts. lia.
Qed.

Lemma get_page_inv m m1 r :
  mem_ok m → get_page m = Some (m1, r) →
  (r = 255 ∧ m1 = m ∧ exhausted m)
  ∨ (0 ≤ r < PAGE_COUNT ∧ rd m r = Some 0 ∧ full_below r m ∧
     wr m r 1 = Some m1).
Proof.
  intros Hm Hg.
  destruct (get_page_spec m Hm) as [(j & m' & Hj & Hf & Hleast & Hw & Hr) | [Hnone Hr]];
    rewrite Hr in Hg; injection Hg as <- <-; [right | left]; done.
Qed.

Lemma get_page_total m : mem_ok m → ∃ m1 r, get_page m = Some (m1, r).
Proof.
  intros Hm.
  destruct (get_page_spec m Hm) as [(j & m' & _ & _ & _ & _ & Hr) | [_ Hr]]; eauto.
Qed.

Lemma get_page_mem_ok m m1 r : mem_ok m → get_page m = Some (m1, r) → mem_ok m1.
Proof.
  intros Hm Hg.
  destruct (get_page_inv _ _ _ Hm Hg) as [(_ & -> & _) | (_ & _ & _ & Hw)];
    [done | by eapply mem_ok_wr].
Qed.

(** * The data-page loop of [new_process] *)

Lemma rd_wr m a v m' a' :
  mem_ok m → wr m a v = Some m' →
  rd m' a' = if decide (a' = a) then Some (v `mod` 256) else rd m a'.
Proof.
  intros Hm Hw. case_decide as Ha.
  - subst a'. by eapply rd_wr_eq.
  - by eapply rd_wr_ne.
Qed.

Lemma small_at_wr m a x m' a' :
  mem_ok m → wr m a x = Some m' → 0 ≤ x < PAGE_COUNT →
  small_at a' m → small_at a' m'.
Proof.
  intros Hm Hw Hx (s & Hs & Hs'). unfold small_at.
  rewrite (rd_wr _ _ _ _ a' Hm Hw). case_decide.
  - exists (x `mod` 256). split; [done |]. rewrite Z.mod_small; consts; lia.
  - eauto.
Qed.

(** A page handed out by [get_page] is not below a full prefix. *)
Lemma full_below_free b m r :
  full_below b m → rd m r = Some 0 → 0 ≤ r < PAGE_COUNT → b ≤ r.
Proof.
  intros Hfull Hr Hrange. destruct (Z_le_gt_dec b r) as [? | Hgt]; [done |].
  exfalso. apply (Hfull r); [lia | lia | done].
Qed.

Lemma np_bound_index t v m r :
  np_bound t v m → 0 ≤ v → rd m r = Some 0 → 0 ≤ r < PAGE_COUNT →
  v < PAGE_COUNT.
Proof.
  intros Hb Hv Hr Hrange.
  destruct Hb as [[_ Hfull] | [_ [Hfull | [[? _] | [? _]]]]].
  - pose proof (full_below_free _ _ _ Hfull Hr Hrange). lia.
  - pose proof (full_below_free _ _ _ Hfull Hr Hrange). lia.
  - consts. lia.
  - consts. lia.
Qed.

Section DataPageLoop.

(** The page table [t] the loop fills and the memory [m0] it starts
    from. *)
Variable t : Z.
Hypothesis Ht : 0 ≤ t < PAGE_COUNT.
Variable m0 : memory.

(** One iteration of the loop that does not run out of pages keeps the
    invariant; in particular its write falls inside the array. *)
Lemma np_step v m m1 r :
  np_inv t m0 v m →
  get_page m = Some (m1, r) → r ≠ 255 →
  ∃ m2, wr m1 (get_address t v) r = Some m2 ∧ v < PAGE_COUNT ∧
        np_inv t m0 (v + 1) m2.
Proof.
  intros [Hm Hv Hb Hfr Hsm] Hg Hr.
  destruct (get_page_inv _ _ _ Hm Hg) as [(-> & _) | (Hrange & Hfree & Hleast & Hw1)];
    [done |].
  assert (v < PAGE_COUNT) as Hv64 by (eapply np_bound_index; eauto; lia).
  assert (get_address t v = t * PAGE_SIZE + v) as Ha
    by (apply get_address_add; consts; lia).
  rewrite Ha.
  assert (mem_ok m1) as Hm1 by (by eapply mem_ok_wr).
  destruct (wr_ok m1 (t * PAGE_SIZE + v) r) as [m2 Hw2]; [consts; lia |].
  exists m2. split; [done |]. split; [done |].
  assert (∀ a, rd m2 a = if decide (a = t * PAGE_SIZE + v) then Some r
                         else if decide (a = r) then Some 1 else rd m a) as Hrd.
  { intros a. rewrite (rd_wr _ _ _ _ a Hm1 Hw2), (rd_wr _ _ _ _ a Hm Hw1).
    rewrite (Z.mod_small r), (Z.mod_small 1); [done | lia | consts; lia]. }
  split.
  - by eapply mem_ok_wr.
  - lia.
  - destruct Hb as [[Ht1 Hfull] | [Ht0 [Hfull | [[Hv1 Hz] | (-> & Hnz & Hz)]]]].
    + left. split; [done |]. intros k Hk Hk'. rewrite Hrd.
      pose proof (full_below_free _ _ _ Hfull Hfree Hrange).
      case_decide; [consts; lia |]. case_decide; [done |].
      apply Hleast; lia.
    + right. split; [done |]. left. intros k Hk Hk'. rewrite Hrd.
      pose proof (full_below_free _ _ _ Hfull Hfree Hrange).
      case_decide; [intros [= ->]; lia |]. case_decide; [done |].
      apply Hfull; consts; lia.
    + assert (r = 0) as ->.
      { destruct (decide (r = 0)) as [? | Hne]; [done |].
        exfalso. apply (Hleast 0); [lia | consts; lia | done]. }
      right. split; [done |]. right.
      destruct (decide (v = 0)) as [-> | Hv0].
      * left. split; [lia |]. rewrite Hrd. by rewrite decide_True by lia.
      * right. assert (v = 1) as -> by lia. split; [done |].
        rewrite !Hrd. split.
        -- rewrite decide_False by (consts; lia). by rewrite decide_True.
        -- by rewrite decide_True by (consts; lia).
    + assert (r = 1) as ->.
      { destruct (decide (r = 0)) as [-> | Hne]; [congruence |].
        destruct (Z_le_gt_dec r 1) as [? | Hgt]; [lia |].
        exfalso. apply (Hleast 1); [lia | consts; lia | done]. }
      right. split; [done |]. left. intros k Hk Hk'. rewrite Hrd.
      case_decide; [done |]. case_decide; [done |].
      assert (k = 0) as -> by (consts; lia). done.
  - intros a Ha1 Ha2. rewrite Hrd.
    case_decide; [consts; lia |]. case_decide; [consts; lia |]. by apply Hfr.
  - intros a Hs. eapply small_at_wr; [exact Hm1 | exact Hw2 | lia |].
    eapply small_at_wr; [exact Hm | exact Hw1 | consts; lia |]. by apply Hsm.
Qed.

(** The loop never leaves the array, and ends in one of two ways. *)
Lemma np_loop_inv rem v m :
  np_inv t m0 v m →
  ∃ m' e, np_loop rem t v m = Some (m', e) ∧
    ((e = NpDone ∧ np_inv t m0 (v + Z.of_nat rem) m')
     ∨ (∃ v', e = NpOomDataPage v' ∧ v ≤ v' < v + Z.of_nat rem ∧
              np_inv t m0 v' m' ∧ exhausted m')).
Proof.
  revert v m. induction rem as [| rem IH]; intros v m Hinv.
  - exists m, NpDone. split; [done |]. left. split; [done |].
    by replace (v + Z.of_nat 0) with v by lia.
  - destruct (get_page_total m (np_inv_ok _ _ _ _ Hinv)) as (m1 & r & Hg).
    cbn [np_loop]. rewrite Hg. cbn. case_bool_decide as Hr.
    + subst r. destruct (get_page_inv _ _ _ (np_inv_ok _ _ _ _ Hinv) Hg)
        as [(_ & -> & Hex) | (Hrange & _)]; [| consts; lia].
      exists m, (NpOomDataPage v). split; [done |]. right.
      exists v. split; [done |]. split; [lia |]. by split.
    + destruct (np_step _ _ _ _ Hinv Hg Hr) as (m2 & Hw & _ & Hinv2).
      rewrite Hw. cbn.
      destruct (IH _ _ Hinv2) as (m' & e & Hrun & Hend).
      exists m', e. split; [done |].
      destruct Hend as [[-> Hi] | (v' & -> & Hv' & Hi & Hex)].
      * left. split; [done |].
        by replace (v + Z.of_nat (S rem)) with (v + 1 + Z.of_nat rem) by lia.
      * right. exists v'. split; [done |]. split; [lia |]. by split.
Qed.

End DataPageLoop.

(** * [new_process] *)

Lemma np_inv_init t p m m1 m2 :
  mem_ok m → 0 ≤ t < PAGE_COUNT → rd m t = Some 0 → full_below t m →
  wr m t 1 = Some m1 → wr m1 (64 + p) t = Some m2 →
  np_inv t m2 0 m2.
Proof.
  intros Hm Ht Hfree Hleast Hw1 Hw2.
  assert (mem_ok m1) as Hm1 by (by eapply mem_ok_wr).
  assert (∀ a, rd m2 a = if decide (a = 64 + p) then Some t
                         else if decide (a = t) then Some 1 else rd m a) as Hrd.
  { intros a. rewrite (rd_wr _ _ _ _ a Hm1 Hw2), (rd_wr _ _ _ _ a Hm Hw1).
    rewrite (Z.mod_small t), (Z.mod_small 1); [done | lia | consts; lia]. }
  split.
  - by eapply mem_ok_wr.
  - consts. lia.
  - destruct (decide (t = 0)) as [-> | Ht0].
    + right. split; [done |]. destruct (decide (64 + p = 0)) as [Hp | Hp].
      * right. left. split; [lia |]. rewrite Hrd. by rewrite decide_True.
      * left. intros k Hk _. assert (k = 0) as -> by lia. rewrite Hrd.
        rewrite decide_False by lia. by rewrite decide_True.
    + left. split; [lia |]. intros k Hk Hk'. rewrite Hrd.
      case_decide; [intros [= ->]; lia |]. case_decide; [done |].
      apply Hleast; lia.
  - by intros a _ _.
  - done.
Qed.

(** The three courses a call of [new_process] can take. *)
Lemma new_process_spec p n m :
  mem_ok m →
  (exhausted m ∧ get_page m = Some (m, 255) ∧
   new_process p n m = Some (m, NpOomPageTable))
  ∨ (∃ t m1, 0 ≤ t < PAGE_COUNT ∧ rd m t = Some 0 ∧ full_below t m ∧
       wr m t 1 = Some m1 ∧ get_page m = Some (m1, t) ∧
       ((¬ in_mem (64 + p) ∧ new_process p n m = None)
        ∨ (∃ m2 m' e, wr m1 (64 + p) t = Some m2 ∧
             new_process p n m = Some (m', e) ∧
             np_inv t m2 (np_mapped n e) m' ∧
             (e = NpDone ∨ (∃ v, e = NpOomDataPage v ∧ v < n ∧ exhausted m'))))).
Proof.
  intros Hm. unfold new_process.
  destruct (get_page_spec m Hm) as [(t & m1 & Ht & Hfree & Hleast & Hw1 & Hg) | [Hex Hg]].
  - right. exists t, m1. rewrite Hg. cbn.
    rewrite bool_decide_eq_false_2 by (consts; lia).
    do 5 (split; [done |]).
    destruct (decide (in_mem (64 + p))) as [Hin | Hout].
    + right. destruct (wr_ok m1 (64 + p) t Hin) as [m2 Hw2]. rewrite Hw2. cbn.
      pose proof (np_inv_init _ _ _ _ _ Hm Ht Hfree Hleast Hw1 Hw2) as Hinit.
      destruct (np_loop_inv t Ht m2 (Z.to_nat n) 0 m2 Hinit)
        as (m' & e & Hrun & [[-> Hi] | (v & -> & Hv & Hi & Hex)]).
      * exists m2, m', NpDone. do 2 (split; [done |]). split; [| by left].
        cbn. by replace (Z.max 0 n) with (0 + Z.of_nat (Z.to_nat n)) by lia.
      * exists m2, m', (NpOomDataPage v). do 2 (split; [done |]).
        split; [done |]. right. exists v. split; [done |]. split; [lia | done].
    + left. split; [done |]. unfold wr. by rewrite bool_decide_eq_false_2.
  - left. rewrite Hg. by cbn.
Qed.

(** A run of [new_process] that returns did one of the two things. *)
Lemma new_process_inv p n m m' e :
  mem_ok m → new_process p n m = Some (m', e) →
  (e = NpOomPageTable ∧ m' = m ∧ exhausted m)
  ∨ (∃ t m1 m2, 0 ≤ t < PAGE_COUNT ∧ rd m t = Some 0 ∧ full_below t m ∧
       wr m t 1 = Some m1 ∧ wr m1 (64 + p) t = Some m2 ∧
       np_inv t m2 (np_mapped n e) m' ∧
       (e = NpDone ∨ (∃ v, e = NpOomDataPage v ∧ v < n ∧ exhausted m'))).
Proof.
  intros Hm Hnp.
  destruct (new_process_spec p n m Hm)
    as [(Hex & _ & Hr) | (t & m1 & Ht & Hfree & Hleast & Hw1 & _ &
          [[_ Hr] | (m2 & m'' & e' & Hw2 & Hr & Hinv & Hend)])];
    rewrite Hr in Hnp; try discriminate; injection Hnp as <- <-.
  - by left.
  - right. exists t, m1, m2. done.
Qed.

Lemma new_process_mem_ok p n m m' e :
  mem_ok m → new_process p n m = Some (m', e) → mem_ok m'.
Proof.
  intros Hm Hnp.
  destruct (new_process_inv _ _ _ _ _ Hm Hnp)
    as [(_ & -> & _) | (t & m1 & m2 & _ & _ & _ & _ & _ & Hinv & _)];
    [done | by destruct Hinv].
Qed.

(** After [new_process] the slot of the process holds a page number of
    the array, and no more than [PAGE_COUNT] pages were mapped. *)
Lemma new_process_slot p n m m' e :
  mem_ok m → new_process p n m = Some (m', e) → e ≠ NpOomPageTable →
  small_at (64 + p) m' ∧ 0 ≤ np_mapped n e ≤ PAGE_COUNT.
Proof.
  intros Hm Hnp He.
  destruct (new_process_inv _ _ _ _ _ Hm Hnp)
    as [(-> & _) | (t & m1 & m2 & Ht & _ & _ & Hw1 & Hw2 & Hinv & _)]; [done |].
  destruct Hinv as [_ Hidx _ _ Hsmall]. split; [| done].
  apply Hsmall. exists t. split; [| done].
  rewrite (rd_wr_eq _ _ _ _ (mem_ok_wr _ _ _ _ Hm Hw1) Hw2).
  f_equal. apply Z.mod_small. consts. lia.
Qed.

(** * The page table [new_process] builds *)

(** One iteration of the data-page loop records the page it was handed,
    and keeps the entries recorded before it: a recorded entry is not 0,
    so its cell is not the usage byte of a page [get_page] hands out, also
    when the page table is page 0. *)
Lemma np_step_entries t ms v m m1 r m2 :
  mem_ok m → 0 ≤ t < PAGE_COUNT → 0 ≤ v < PAGE_COUNT →
  np_entries t ms v m →
  get_page m = Some (m1, r) → r ≠ 255 →
  wr m1 (get_address t v) r = Some m2 →
  np_entries t ms (v + 1) m2.
Proof.
  intros Hm Ht Hv (H0 & Hmono & Hent) Hg Hr Hw2.
  destruct (get_page_inv _ _ _ Hm Hg) as [(-> & _) | (Hrange & Hfree & _ & Hw1)];
    [done |].
  rewrite get_address_add in Hw2 by (consts; lia).
  assert (mem_ok m1) as Hm1 by (by eapply mem_ok_wr).
  assert (r ≠ 0) as Hr0 by congruence.
  assert (∀ a, rd m2 a = if decide (a = t * PAGE_SIZE + v) then Some r
                         else if decide (a = r) then Some 1 else rd m a) as Hrd.
  { intros a. rewrite (rd_wr _ _ _ _ a Hm1 Hw2), (rd_wr _ _ _ _ a Hm Hw1).
    rewrite (Z.mod_small r), (Z.mod_small 1); [done | lia | consts; lia]. }
  assert (∀ a, rd m a ≠ Some 0 → rd m2 a ≠ Some 0) as Hkeep.
  { intros a Ha. rewrite Hrd. case_decide; [congruence |].
    case_decide; [done | done]. }
  split; [by apply Hkeep |]. split; [by intros k Hk Hs; apply Hkeep, Hmono |].
  intros u Hu. destruct (decide (u = v)) as [-> | Hne].
  - exists r. rewrite !Hrd. rewrite decide_True by done.
    split; [done |]. split; [lia |]. split.
    + destruct (decide (rd ms r = Some 0)) as [? | Hused]; [done |].
      by apply Hmono in Hused.
    + case_decide; [congruence |]. by rewrite decide_True.
  - destruct (Hent u) as (d & Hd & Hdr & Hdfree & Hdused); [lia |].
    exists d. split; [| split; [done | split; [done | by apply Hkeep]]].
    rewrite Hrd. rewrite decide_False by lia.
    rewrite decide_False; [done |]. intros Heq. rewrite Heq in Hd.
    rewrite Hfree in Hd. injection Hd as <-. lia.
Qed.

Lemma np_loop_entries t ms m0 rem v m m' :
  0 ≤ t < PAGE_COUNT →
  np_inv t m0 v m → np_entries t ms v m →
  np_loop rem t v m = Some (m', NpDone) →
  np_entries t ms (v + Z.of_nat rem) m'.
Proof.
  intros Ht. revert v m. induction rem as [| rem IH]; intros v m Hinv Hent Hrun.
  - injection Hrun as <-. by replace (v + Z.of_nat 0) with v by lia.
  - pose proof (np_inv_ok _ _ _ _ Hinv) as Hm.
    pose proof (np_inv_index _ _ _ _ Hinv) as Hv.
    destruct (get_page_total m Hm) as (m1 & r & Hg).
    cbn [np_loop] in Hrun. rewrite Hg in Hrun. cbn in Hrun.
    case_bool_decide as Hr; [discriminate |].
    destruct (np_step t Ht m0 _ _ _ _ Hinv Hg Hr) as (m2 & Hw & Hv64 & Hinv2).
    rewrite Hw in Hrun. cbn in Hrun.
    replace (v + Z.of_nat (S rem)) with (v + 1 + Z.of_nat rem) by lia.
    apply (IH _ m2); [done | | done].
    eapply np_step_entries; [exact Hm | done | lia | done | exact Hg | done | done].
Qed.

(** What a call of [new_process] that maps all its pages has built, for a
    process number with its slot in page zero and on any memory: the slot
    holds the page [t] that the first [get_page] returned, and entry [v]
    of page [t], for every [v < n], is a page that was free before the
    call and is in use after it. *)
Lemma new_process_built m0 mt t p n m1 :
  mem_ok m0 → proc_in_zero_page p →
  get_page m0 = Some (mt, t) →
  new_process p n m0 = Some (m1, NpDone) →
  mem_ok m1 ∧ 0 ≤ t < PAGE_COUNT ∧ rd m0 t = Some 0 ∧
  rd m1 (64 + p) = Some t ∧ rd m1 t ≠ Some 0 ∧ n ≤ PAGE_COUNT ∧
  ∀ v, 0 ≤ v < n →
    ∃ d, rd m1 (t * PAGE_SIZE + v) = Some d ∧ 1 ≤ d < PAGE_COUNT ∧ d ≠ t ∧
         rd m0 d = Some 0 ∧ rd m1 d ≠ Some 0.
Proof.
  intros Hm [Hp0 Hp1] Hg Hnp.
  unfold new_process in Hnp. rewrite Hg in Hnp. cbn in Hnp.
  case_bool_decide as Ht255; [discriminate |].
  destruct (get_page_inv _ _ _ Hm Hg) as [(-> & _) | (Ht & Hfree & Hleast & Hw1)];
    [done |].
  destruct (wr mt (64 + p) t) as [m2 |] eqn:Hw2; [| discriminate]. cbn in Hnp.
  assert (mem_ok mt) as Hmt by (by eapply mem_ok_wr).
  assert (∀ a, rd m2 a = if decide (a = 64 + p) then Some t
                         else if decide (a = t) then Some 1 else rd m0 a) as Hrd.
  { intros a. rewrite (rd_wr _ _ _ _ a Hmt Hw2), (rd_wr _ _ _ _ a Hm Hw1).
    rewrite (Z.mod_small t), (Z.mod_small 1); [done | lia | consts; lia]. }
  pose proof (np_inv_init _ _ _ _ _ Hm Ht Hfree Hleast Hw1 Hw2) as Hinit.
  assert (np_entries t m2 0 m2) as Hent0.
  { split; [| split; [done | intros; lia]].
    rewrite Hrd. rewrite decide_False by (consts; lia).
    case_decide; [done |]. apply Hleast; consts; lia. }
  pose proof (np_loop_entries _ _ _ _ _ _ _ Ht Hinit Hent0 Hnp) as (H0 & Hmono & Hent).
  destruct (np_loop_inv t Ht m2 (Z.to_nat n) 0 m2 Hinit)
    as (m' & e & Hrun & Hend).
  rewrite Hnp in Hrun. injection Hrun as <- <-.
  destruct Hend as [[_ Hinv] | (v' & [=] & _)].
  destruct Hinv as [Hm1 Hidx _ Hframe _].
  assert (rd m2 t = Some 1) as Ht2.
  { rewrite Hrd. rewrite decide_False by (consts; lia). by rewrite decide_True. }
  split; [done |]. split; [done |]. split; [done |]. split; [| split; [| split]].
  - rewrite Hframe; [| consts; lia | consts; lia].
    rewrite Hrd. by rewrite decide_True.
  - apply Hmono; [done |]. by rewrite Ht2.
  - lia.
  - intros v Hv. destruct (Hent v) as (d & Hd & Hdr & Hdfree & Hdused); [lia |].
    exists d. split; [done |]. split; [done |].
    assert (d ≠ t) as Hdt by (intros ->; congruence).
    split; [done |]. split; [| done].
    rewrite Hrd in Hdfree. rewrite decide_False in Hdfree by (consts; lia).
    by rewrite decide_False in Hdfree.
Qed.

(** * The initial memory *)

Lemma mem_ok_zero_mem : mem_ok zero_mem.
Proof.
  split.
  - unfold zero_mem. by rewrite length_replicate.
  - apply Forall_replicate. consts. lia.
Qed.

Lemma rd_zero_mem a : in_mem a → rd zero_mem a = Some 0.
Proof.
  intros Ha. rewrite (rd_in_mem _ _ Ha). apply lookup_replicate_2.
  consts. lia.
Qed.

Lemma mem_ok_initialize_mem : mem_ok initialize_mem.
Proof.
  destruct mem_ok_zero_mem as [Hlen Hall]. split.
  - unfold initialize_mem. by rewrite length_insert.
  - apply Forall_insert; [done | consts; lia].
Qed.

(** * Consecutive allocations *)

Lemma get_pages_run n k m :
  mem_ok m → 0 ≤ k → k + Z.of_nat n ≤ PAGE_COUNT → full_below k m →
  (∀ j, k ≤ j < PAGE_COUNT → rd m j = Some 0) →
  (∃ m', get_pages n m = Some (m', seqZ k (Z.of_nat n)))
  ∧ (k + Z.of_nat n = PAGE_COUNT →
     ∃ m', get_pages (S n) m = Some (m', seqZ k (Z.of_nat n) ++ [255])).
Proof.
  revert k m. induction n as [| n IH]; intros k m Hm Hk Hle Hfull Hzero.
  - split; [by exists m |]. intros Heq.
    assert (k = PAGE_COUNT) as -> by lia.
    destruct (get_page_spec m Hm) as [(j & m' & Hj & Hf & _) | [_ Hg]].
    + exfalso. apply (Hfull j); [lia | lia | done].
    + exists m. cbn [get_pages]. rewrite Hg. by cbn.
  - destruct (get_page_spec m Hm) as [(j & m1 & Hj & Hf & Hleast & Hw & Hg) | [Hex _]];
      [| exfalso; apply (Hex k); [lia | lia | apply Hzero; lia]].
    assert (j = k) as ->.
    { pose proof (full_below_free _ _ _ Hfull Hf Hj).
      destruct (decide (j = k)) as [? | ?]; [done |].
      exfalso. apply (Hleast k); [lia | lia | apply Hzero; lia]. }
    assert (mem_ok m1) as Hm1 by (by eapply mem_ok_wr).
    destruct (IH (k + 1) m1) as [(m2 & Hrun) Hlast]; [done | lia | lia | | |].
    { intros i Hi Hi'. rewrite (rd_wr _ _ _ _ i Hm Hw).
      case_decide; [done |]. apply Hfull; lia. }
    { intros i Hi. rewrite (rd_wr _ _ _ _ i Hm Hw).
      rewrite decide_False by lia. apply Hzero. lia. }
    assert (seqZ k (Z.of_nat (S n)) = k :: seqZ (k + 1) (Z.of_nat n)) as ->.
    { rewrite seqZ_cons by lia. f_equal. f_equal; lia. }
    split.
    + exists m2. cbn [get_pages]. rewrite Hg. cbn. rewrite Hrun. by cbn.
    + intros Heq. destruct Hlast as [m3 Hrun']; [lia |].
      exists m3. change (get_pages (S (S n)) m)
        with ('(m1, r) ← get_page m; '(m2, rs) ← get_pages (S n) m1; Some (m2, r :: rs)).
      rewrite Hg. cbn -[get_pages]. rewrite Hrun'. by cbn.
Qed.

(** * The claims about the allocator *)

(** C5.  In every memory state [get_page] returns the smallest page number
    in [0, PAGE_COUNT) whose usage byte is 0 and sets that byte to 1,
    changing nothing else; when no usage byte is 0 it returns 0xff and
    leaves the memory as it is.  The result is a function of the memory:
    first fit by ascending page number. *)
Theorem get_page_first_fit (m : memory) :
  mem_ok m →
  ∃ m' r, get_page m = Some (m', r) ∧
    ((∃ k, 0 ≤ k < PAGE_COUNT ∧ rd m k = Some 0) →
       0 ≤ r < PAGE_COUNT ∧ rd m r = Some 0 ∧
       (∀ k, 0 ≤ k < r → rd m k ≠ Some 0) ∧
       m' = <[Z.to_nat r := 1]> m) ∧
    ((∀ k, 0 ≤ k < PAGE_COUNT → rd m k ≠ Some 0) → r = 255 ∧ m' = m).
Proof.
  intros Hm.
  destruct (get_page_spec m Hm) as [(j & m' & Hj & Hf & Hleast & Hw & Hg) | [Hex Hg]].
  - exists m', j. split; [done |]. split.
    + intros _. do 2 (split; [done |]). split.
      * intros k Hk. apply Hleast; lia.
      * by apply wr_Some in Hw as [_ ->].
    + intros Hnone. exfalso. by apply (Hnone j).
  - exists m, 255. split; [done |]. split; [| done].
    intros (k & Hk & Hf). exfalso. apply (Hex k); [lia | lia | done].
Qed.

Lemma get_page_first_fit_witness :
  mem_ok initialize_mem ∧
  ∃ m' r, get_page initialize_mem = Some (m', r) ∧
    ((∃ k, 0 ≤ k < PAGE_COUNT ∧ rd initialize_mem k = Some 0) →
       0 ≤ r < PAGE_COUNT ∧ rd initialize_mem r = Some 0 ∧
       (∀ k, 0 ≤ k < r → rd initialize_mem k ≠ Some 0) ∧
       m' = <[Z.to_nat r := 1]> initialize_mem) ∧
    ((∀ k, 0 ≤ k < PAGE_COUNT → rd initialize_mem k ≠ Some 0) →
       r = 255 ∧ m' = initialize_mem).
Proof.
  split; [exact mem_ok_initialize_mem |].
  exact (get_page_first_fit initialize_mem mem_ok_initialize_mem).
Defined.

(** C4.  From a memory whose usage bytes are all 0, any number
    [n ≤ PAGE_COUNT] of consecutive [get_page] calls returns [n] page
    numbers in [0, PAGE_COUNT), no two of them equal, and the call after
    [PAGE_COUNT] of them returns 0xff. *)
Theorem get_pages_distinct (m : memory) :
  mem_ok m →
  (∀ k, 0 ≤ k < PAGE_COUNT → rd m k = Some 0) →
  (∀ n : nat, Z.of_nat n ≤ PAGE_COUNT →
     ∃ m' rs, get_pages n m = Some (m', rs) ∧ length rs = n ∧
              Forall (λ r, 0 ≤ r < PAGE_COUNT) rs ∧ NoDup rs)
  ∧ (∃ m' rs, get_pages (S (Z.to_nat PAGE_COUNT)) m = Some (m', rs ++ [255]) ∧
              length rs = Z.to_nat PAGE_COUNT).
Proof.
  intros Hm Hzero. split.
  - intros n Hn.
    destruct (get_pages_run n 0 m) as [(m' & Hrun) _]; try done; try lia.
    { intros k Hk. lia. }
    exists m', (seqZ 0 (Z.of_nat n)). split; [done |]. split; [| split].
    + rewrite length_seqZ. lia.
    + apply Forall_forall. intros r Hr. apply elem_of_seqZ in Hr. lia.
    + apply NoDup_seqZ.
  - destruct (get_pages_run (Z.to_nat PAGE_COUNT) 0 m) as [_ Hlast];
      try done; try (consts; lia).
    { intros k Hk. lia. }
    destruct Hlast as [m' Hrun]; [consts; lia |].
    exists m', (seqZ 0 (Z.of_nat (Z.to_nat PAGE_COUNT))). split; [done |].
    rewrite length_seqZ. lia.
Qed.

Lemma get_pages_distinct_witness :
  mem_ok zero_mem ∧
  (∀ k, 0 ≤ k < PAGE_COUNT → rd zero_mem k = Some 0) ∧
  (∀ n : nat, Z.of_nat n ≤ PAGE_COUNT →
     ∃ m' rs, get_pages n zero_mem = Some (m', rs) ∧ length rs = n ∧
              Forall (λ r, 0 ≤ r < PAGE_COUNT) rs ∧ NoDup rs)
  ∧ (∃ m' rs, get_pages (S (Z.to_nat PAGE_COUNT)) zero_mem = Some (m', rs ++ [255]) ∧
              length rs = Z.to_nat PAGE_COUNT).
Proof.
  assert (∀ k, 0 ≤ k < PAGE_COUNT → rd zero_mem k = Some 0) as Hzero.
  { intros k Hk. apply rd_zero_mem. consts. lia. }
  split; [exact mem_ok_zero_mem |]. split; [exact Hzero |].
  exact (get_pages_distinct zero_mem mem_ok_zero_mem Hzero).
Defined.

(** C6, as the code has it.  When some usage byte is 0, or the byte at
    address 255 is 0, [deallocate_page] applied to what [get_page] returned
    gives back the memory as it was before the two calls, and the next
    [get_page] returns the same value as the first. *)
Theorem dealloc_get_page_roundtrip (m : memory) :
  mem_ok m →
  (∃ k, 0 ≤ k < PAGE_COUNT ∧ rd m k = Some 0) ∨ rd m 255 = Some 0 →
  ∃ m1 r m2, get_page m = Some (m1, r) ∧ deallocate_page r m1 = Some m2 ∧
             m2 = m ∧ ∃ m3, get_page m2 = Some (m3, r).
Proof.
  intros Hm Hcase. unfold deallocate_page.
  destruct (get_page_spec m Hm) as [(j & m1 & Hj & Hf & Hleast & Hw & Hg) | [Hex Hg]].
  - destruct (wr_ok m1 j 0) as [m2 Hw2]; [consts; lia |].
    assert (m2 = m) as ->.
    { eapply wr_same; [| eapply wr_wr; eassumption]. done. }
    exists m1, j, m. eauto.
  - destruct Hcase as [(k & Hk & Hf) | H255].
    { exfalso. apply (Hex k); [lia | lia | done]. }
    destruct (wr_ok m 255 0) as [m2 Hw2]; [consts; lia |].
    assert (m2 = m) as -> by (by apply (wr_same m 255 0 m2)).
    exists m, 255, m. eauto.
Qed.

Lemma dealloc_get_page_roundtrip_witness :
  mem_ok initialize_mem ∧
  ((∃ k, 0 ≤ k < PAGE_COUNT ∧ rd initialize_mem k = Some 0)
   ∨ rd initialize_mem 255 = Some 0) ∧
  ∃ m1 r m2, get_page initialize_mem = Some (m1, r) ∧
             deallocate_page r m1 = Some m2 ∧
             m2 = initialize_mem ∧ ∃ m3, get_page m2 = Some (m3, r).
Proof.
  assert ((∃ k, 0 ≤ k < PAGE_COUNT ∧ rd initialize_mem k = Some 0)
          ∨ rd initialize_mem 255 = Some 0) as Hfree.
  { left. exists 1. split; [consts; lia | reflexivity]. }
  split; [exact mem_ok_initialize_mem |]. split; [exact Hfree |].
  exact (dealloc_get_page_roundtrip initialize_mem mem_ok_initialize_mem Hfree).
Defined.

(** C6 fails as stated.  After [np 191 62] every page is in use and the
    slot of process 191, at address 255, holds 1: [get_page] returns 0xff,
    [deallocate_page] clears the byte at address 255, and the memory is
    not what it was. *)
Lemma dealloc_get_page_roundtrip_fails :
  ∃ m m1 r m2,
    run [Cnp 191 62] initialize_mem = Some m ∧ mem_ok m ∧
    get_page m = Some (m1, r) ∧ deallocate_page r m1 = Some m2 ∧
    r = 255 ∧ rd m 255 = Some 1 ∧ rd m2 255 = Some 0 ∧ m2 ≠ m.
Proof.
  destruct (new_process 191 62 initialize_mem) as [[m e] |] eqn:Hnp;
    [| by vm_compute in Hnp].
  pose proof (new_process_mem_ok _ _ _ _ _ mem_ok_initialize_mem Hnp) as Hm.
  assert (get_page m = Some (m, 255) ∧ rd m 255 = Some 1) as [Hg H255].
  { assert (Some m = fst <$> new_process 191 62 initialize_mem) as Hm'
      by (by rewrite Hnp).
    vm_compute in Hm'. injection Hm' as ->. split; by vm_compute. }
  destruct (wr_ok m 255 0) as [m2 Hw]; [consts; lia |].
  exists m, m, 255, m2. cbn [run exec]. rewrite Hnp. cbn.
  do 5 (split; [done |]).
  assert (rd m2 255 = Some 0) as H255' by (by rewrite (rd_wr_eq _ _ _ _ Hm Hw)).
  do 2 (split; [done |]). intros ->. congruence.
Qed.

(** * The claims about [new_process] and translation *)

(** C10, as the code has it.  Whatever the memory and whatever
    [page_count], also beyond [PAGE_SIZE], a call of [new_process] for a
    process number whose slot [64 + proc_num] lies in the array makes no
    access outside the array: it returns.  The data-page loop runs at most [PAGE_COUNT] iterations
    to their end before [get_page] returns 0xff, so every index [vpage] it
    writes at is below [PAGE_COUNT], and the cell [get_address(page_table,
    vpage)] it writes lies in the page-table page and in [0, MEM_SIZE). *)
Theorem new_process_in_bounds (m : memory) (p n : Z) :
  mem_ok m → in_mem (64 + p) →
  ∃ m' e, new_process p n m = Some (m', e) ∧
    np_mapped n e ≤ PAGE_COUNT ∧
    ∀ m1 t, get_page m = Some (m1, t) →
      ∀ v, 0 ≤ v < np_mapped n e →
        v < PAGE_COUNT ∧ in_mem (get_address t v) ∧
        t * PAGE_SIZE ≤ get_address t v < (t + 1) * PAGE_SIZE.
Proof.
  intros Hm Hin.
  destruct (new_process_spec p n m Hm)
    as [(Hex & Hg & Hr) | (t & m1 & Ht & Hfree & Hleast & Hw1 & Hg &
          [[Hout _] | (m2 & m' & e & Hw2 & Hr & Hinv & Hend)])]; [| done |].
  - exists m, NpOomPageTable. split; [done |]. cbn. split; [consts; lia |].
    intros ? ? _ v Hv. lia.
  - exists m', e. split; [done |].
    pose proof (np_inv_index _ _ _ _ Hinv) as Hidx. split; [lia |].
    intros m1' t' Hg' v Hv. rewrite Hg in Hg'. injection Hg' as <- <-.
    rewrite get_address_add by (consts; lia). consts. lia.
Qed.

Lemma new_process_in_bounds_witness :
  mem_ok initialize_mem ∧ in_mem (64 + 7) ∧
  ∃ m' e, new_process 7 1000 initialize_mem = Some (m', e) ∧
    np_mapped 1000 e ≤ PAGE_COUNT ∧
    ∀ m1 t, get_page initialize_mem = Some (m1, t) →
      ∀ v, 0 ≤ v < np_mapped 1000 e →
        v < PAGE_COUNT ∧ in_mem (get_address t v) ∧
        t * PAGE_SIZE ≤ get_address t v < (t + 1) * PAGE_SIZE.
Proof.
  assert (in_mem (64 + 7)) as Hin by (consts; lia).
  split; [exact mem_ok_initialize_mem |]. split; [exact Hin |].
  exact (new_process_in_bounds initialize_mem 7 1000 mem_ok_initialize_mem Hin).
Defined.

(** C10 fails as stated.  On the initial memory [new_process(20000, 0)]
    gets page 1 for the page table and then writes it to [mem[20064]],
    outside the array. *)
Lemma new_process_slot_outside :
  ¬ in_mem (64 + 20000) ∧
  (∃ m1, get_page initialize_mem = Some (m1, 1) ∧ wr m1 (64 + 20000) 1 = None) ∧
  new_process 20000 0 initialize_mem = None.
Proof.
  split; [consts; lia |]. split; [| vm_compute; reflexivity].
  eexists. split; vm_compute; reflexivity.
Qed.

(** C1, as the code has it.  Let [p] be a process number whose slot lies
    in page zero, and let [new_process(p, n)] have mapped all [n] data
    pages, with [t] the page its first [get_page] returned, the page table
    it built.  Then the process-table slot of [p] names [t], and for every
    virtual page [v < n] and offset [o] in [0, PAGE_SIZE),
    [get_physical_addr(p, v * PAGE_SIZE + o)] is [(phys_page << 8) | o],
    where [phys_page] is the byte at offset [v] of page [t]: the number of
    a page other than [t] that was free before the call and is in use
    after it.  (That the slot was unset before the call is not needed, nor
    that page 0 was in use.) *)
Theorem translation_correct (m0 mt m1 : memory) (p n t v o : Z) :
  mem_ok m0 → proc_in_zero_page p →
  get_page m0 = Some (mt, t) →
  new_process p n m0 = Some (m1, NpDone) →
  0 ≤ v < n → 0 ≤ o < PAGE_SIZE →
  get_page_table p m1 = Some t ∧
  ∃ phys_page,
    get_phys_page t v m1 = Some phys_page ∧
    0 ≤ phys_page < PAGE_COUNT ∧ phys_page ≠ t ∧
    rd m0 phys_page = Some 0 ∧ rd m1 phys_page ≠ Some 0 ∧
    get_physical_addr p (v * PAGE_SIZE + o) m1
      = Some (Z.lor (Z.shiftl phys_page 8) o).
Proof.
  intros Hm Hp Hg Hnp Hv Ho.
  destruct (new_process_built _ _ _ _ _ _ Hm Hp Hg Hnp)
    as (Hm1 & Ht & _ & Hslot & _ & Hn & Hent).
  destruct (Hent v Hv) as (d & Hd & Hdr & Hdt & Hdfree & Hdused).
  assert (get_page_table p m1 = Some t) as Hpt
    by (unfold get_page_table; by rewrite Z.add_comm).
  split; [done |]. exists d. split; [done |]. split; [lia |].
  do 3 (split; [done |]).
  unfold get_physical_addr. rewrite Hpt. cbn.
  rewrite virt_page_of, offset_of by done.
  rewrite get_address_add by (consts; lia). by rewrite Hd.
Qed.

Lemma translation_correct_witness :
  mem_ok initialize_mem ∧ proc_in_zero_page 0 ∧
  get_page initialize_mem = Some (<[1%nat := 1]> initialize_mem, 1) ∧
  new_process 0 2 initialize_mem = Some (state_after [Cnp 0 2], NpDone) ∧
  0 ≤ 1 < 2 ∧ 0 ≤ 5 < PAGE_SIZE ∧
  get_page_table 0 (state_after [Cnp 0 2]) = Some 1 ∧
  ∃ phys_page,
    get_phys_page 1 1 (state_after [Cnp 0 2]) = Some phys_page ∧
    0 ≤ phys_page < PAGE_COUNT ∧ phys_page ≠ 1 ∧
    rd initialize_mem phys_page = Some 0 ∧
    rd (state_after [Cnp 0 2]) phys_page ≠ Some 0 ∧
    get_physical_addr 0 (1 * PAGE_SIZE + 5) (state_after [Cnp 0 2])
      = Some (Z.lor (Z.shiftl phys_page 8) 5).
Proof.
  assert (proc_in_zero_page 0) as Hp by (unfold proc_in_zero_page; consts; lia).
  assert (get_page initialize_mem = Some (<[1%nat := 1]> initialize_mem, 1))
    as Hg by (vm_compute; reflexivity).
  assert (new_process 0 2 initialize_mem = Some (state_after [Cnp 0 2], NpDone))
    as Hnp by (vm_compute; reflexivity).
  assert (0 ≤ 1 < 2) as Hv by lia.
  assert (0 ≤ 5 < PAGE_SIZE) as Ho by (consts; lia).
  split; [exact mem_ok_initialize_mem |]. split; [exact Hp |].
  split; [exact Hg |]. split; [exact Hnp |].
  split; [exact Hv |]. split; [exact Ho |].
  exact (translation_correct initialize_mem _ _ 0 2 1 1 5
           mem_ok_initialize_mem Hp Hg Hnp Hv Ho).
Defined.

(** C1 fails as stated.  The slot of process 192 is [mem[256]], entry 0
    of page 1, and it is unset on the initial memory.  [new_process(192,
    2)] takes page 1 for the page table and writes 1 to the slot; the
    entry write for virtual page 0 then overwrites the slot with the data
    page 2, and entry 1 of page 1 becomes 3.  All data pages were mapped,
    but the slot now names page 2: [get_physical_addr(192, 1 * PAGE_SIZE +
    5)] reads entry 1 of page 2, which is 0, and is 5, not [(3 << 8) | 5 =
    773]. *)
Lemma translation_wrong_outside_zero_page :
  ¬ proc_in_zero_page 192 ∧
  get_page_table 192 initialize_mem = Some 0 ∧
  get_page initialize_mem = Some (<[1%nat := 1]> initialize_mem, 1) ∧
  new_process 192 2 initialize_mem = Some (state_after [Cnp 192 2], NpDone) ∧
  get_phys_page 1 1 (state_after [Cnp 192 2]) = Some 3 ∧
  get_page_table 192 (state_after [Cnp 192 2]) = Some 2 ∧
  get_physical_addr 192 (1 * PAGE_SIZE + 5) (state_after [Cnp 192 2]) = Some 5 ∧
  Z.lor (Z.shiftl 3 8) 5 = 773.
Proof.
  split; [unfold proc_in_zero_page; consts; lia |].
  split; [vm_compute; reflexivity |]. split; [vm_compute; reflexivity |].
  split; [vm_compute; reflexivity |]. split; [vm_compute; reflexivity |].
  split; [vm_compute; reflexivity |]. split; [vm_compute; reflexivity |].
  reflexivity.
Qed.

(** * [kill_process] *)

Lemma kp_loop_spec t rem i m :
  mem_ok m → 1 ≤ t < PAGE_COUNT → 0 ≤ i → i + Z.of_nat rem ≤ PAGE_COUNT →
  ∃ m', kp_loop rem t i m = Some m' ∧ mem_ok m' ∧ kept_or_freed m m' ∧
    ∀ u d, i ≤ u < i + Z.of_nat rem →
           rd m (t * PAGE_SIZE + u) = Some d → d ≠ 0 → rd m' d = Some 0.
Proof.
  intros Hm Ht. revert i m Hm. induction rem as [| rem IH]; intros i m Hm Hi Hle.
  - exists m. split; [done |]. split; [done |]. split; [by left |]. intros; lia.
  - cbn [kp_loop]. rewrite get_address_add by (consts; lia).
    destruct (rd_ok m (t * PAGE_SIZE + i) Hm) as (b & Hb & Hbyte); [consts; lia |].
    rewrite Hb. cbn.
    assert (∃ m1, (if bool_decide (b ≠ 0)
                   then deallocate_page b m else Some m) = Some m1
                  ∧ mem_ok m1
                  ∧ (∀ a, rd m1 a = if decide (a = b ∧ b ≠ 0) then Some 0 else rd m a))
      as (m1 & -> & Hm1 & Hrd1).
    { case_bool_decide as Hnz.
      - unfold deallocate_page.
        destruct (wr_ok m b 0) as [m1 Hw]; [consts; lia |].
        exists m1. split; [done |]. split; [by eapply mem_ok_wr |].
        intros a. rewrite (rd_wr _ _ _ _ a Hm Hw).
        repeat case_decide; try done; tauto.
      - exists m. split; [done |]. split; [done |].
        intros a. rewrite decide_False; [done | tauto]. }
    cbn. destruct (IH (i + 1) m1 Hm1) as (m' & Hrun & Hm' & Hkf & Hent); [lia | lia |].
    exists m'. split; [done |]. split; [done |]. split.
    + intros a. destruct (Hkf a) as [Heq | Hz]; [| by right].
      rewrite Heq, Hrd1.
      destruct (decide (a = b ∧ b ≠ 0)) as [[-> Hnz] | Hab]; [| by left].
      right. split; [done |]. consts. lia.
    + intros u d Hu Hd Hnz. destruct (decide (u = i)) as [-> | Hne].
      * assert (d = b) as -> by congruence.
        destruct (Hkf b) as [Heq | [Hz _]]; [| done].
        rewrite Heq, Hrd1. by rewrite decide_True.
      * apply (Hent u); [lia | | done].
        rewrite Hrd1. rewrite decide_False; [done |]. consts. lia.
Qed.

(** [kill_process] on a process whose slot names a page other than
    page 0. *)
Lemma kill_process_spec p t m :
  mem_ok m → get_page_table p m = Some t → 1 ≤ t < PAGE_COUNT →
  ∃ m', kill_process p m = Some m' ∧ mem_ok m' ∧ kept_or_freed m m' ∧
    rd m' t = Some 0 ∧
    ∀ u d, 0 ≤ u < PAGE_COUNT →
           rd m (t * PAGE_SIZE + u) = Some d → d ≠ 0 → rd m' d = Some 0.
Proof.
  intros Hm Hslot Ht. unfold kill_process. rewrite Hslot. cbn.
  destruct (kp_loop_spec t (Z.to_nat PAGE_COUNT) 0 m Hm Ht)
    as (m1 & -> & Hm1 & Hkf & Hent); [lia | consts; lia |].
  cbn. unfold deallocate_page.
  destruct (wr_ok m1 t 0) as [m' Hw]; [consts; lia |].
  exists m'. split; [done |]. split; [by eapply mem_ok_wr |].
  assert (∀ a, rd m' a = if decide (a = t) then Some 0 else rd m1 a) as Hrd
    by (intros a; apply (rd_wr _ _ _ _ a Hm1 Hw)).
  split; [| split].
  - intros a. rewrite Hrd. case_decide as Hat; [| apply Hkf].
    right. split; [done |]. consts. lia.
  - rewrite Hrd. by rewrite decide_True.
  - intros u d Hu Hd Hnz. rewrite Hrd. case_decide; [done |].
    apply (Hent u); [consts; lia | done | done].
Qed.

(** A slot byte that is no page number of the array makes the first read
    of the loop fall outside the array. *)
Lemma kill_process_bad_table p t m :
  get_page_table p m = Some t → PAGE_COUNT ≤ t → kill_process p m = None.
Proof.
  intros Hslot Ht. unfold kill_process. rewrite Hslot. cbn.
  change (Z.to_nat PAGE_COUNT) with (S 63). cbn [kp_loop].
  assert (rd m (get_address t 0) = None) as ->; [| done].
  unfold rd. rewrite bool_decide_eq_false_2; [done |].
  unfold get_address. rewrite Z.lor_0_r, Z.shiftl_mul_pow2 by (consts; lia).
  consts. lia.
Qed.

(** The loop of [kill_process] over page 0, the usage table itself. *)
Lemma kp_loop_zero rem i m :
  mem_ok m → usage_01 m → 0 ≤ i → i + Z.of_nat rem ≤ PAGE_COUNT →
  ∃ m', kp_loop rem 0 i m = Some m' ∧ mem_ok m' ∧
    (∀ a, a ≠ 1 → rd m' a = rd m a) ∧
    (rd m' 1 = rd m 1 ∨ rd m' 1 = Some 0) ∧
    (i ≤ 1 < i + Z.of_nat rem → rd m' 1 = Some 0).
Proof.
  revert i m. induction rem as [| rem IH]; intros i m Hm H01 Hi Hle.
  - exists m. split; [done |]. split; [done |]. split; [done |].
    split; [by left | lia].
  - cbn [kp_loop]. rewrite get_address_0.
    assert (∃ m1, (b ← rd m i;
                   if bool_decide (b ≠ 0)
                   then page ← rd m i; deallocate_page page m else Some m) = Some m1
                  ∧ mem_ok m1 ∧ usage_01 m1
                  ∧ (∀ a, a ≠ 1 → rd m1 a = rd m a)
                  ∧ (rd m1 1 = rd m 1 ∨ rd m1 1 = Some 0)
                  ∧ (i = 1 → rd m1 1 = Some 0))
      as (m1 & Hstep & Hm1 & H01' & Hfr & H1 & Hi1).
    { destruct (H01 i) as [Hb | Hb]; [consts; lia | |]; rewrite Hb; cbn.
      - exists m. rewrite bool_decide_eq_false_2 by tauto.
        do 4 (split; [done |]). split; [by left |]. by intros ->.
      - rewrite bool_decide_eq_true_2 by done. unfold deallocate_page.
        destruct (wr_ok m 1 0) as [m1 Hw]; [consts; lia |].
        assert (∀ a, rd m1 a = if decide (a = 1) then Some 0 else rd m a) as Hrd
          by (intros a; apply (rd_wr _ _ _ _ a Hm Hw)).
        exists m1. split; [done |]. split; [by eapply mem_ok_wr |]. split; [| split; [| split]].
        + intros k Hk. rewrite Hrd. case_decide; [by left | by apply H01].
        + intros a Ha. rewrite Hrd. by rewrite decide_False.
        + right. rewrite Hrd. by rewrite decide_True.
        + intros _. rewrite Hrd. by rewrite decide_True. }
    destruct (rd m i) as [b |] eqn:Hb; [| discriminate]. cbn in Hstep |- *.
    rewrite Hstep. cbn.
    destruct (IH (i + 1) m1 Hm1 H01') as (m' & Hrun & Hm' & Hfr' & H1' & Hi1');
      [lia | lia |].
    exists m'. split; [done |]. split; [done |]. split; [| split].
    + intros a Ha. by rewrite Hfr', Hfr.
    + destruct H1' as [-> | ->]; [done | by right].
    + intros Hcover. destruct (decide (i = 1)) as [-> | Hne].
      * destruct H1' as [-> | ->]; [by apply Hi1 | done].
      * apply Hi1'. lia.
Qed.

Lemma rd_initialize_mem a :
  in_mem a → rd initialize_mem a = Some (if decide (a = 0) then 1 else 0).
Proof.
  intros Ha.
  assert (wr zero_mem 0 1 = Some initialize_mem) as Hw by reflexivity.
  rewrite (rd_wr _ _ _ _ a mem_ok_zero_mem Hw).
  case_decide; [done | by apply rd_zero_mem].
Qed.

Lemma usage_01_initialize_mem : usage_01 initialize_mem.
Proof.
  intros k Hk. rewrite rd_initialize_mem by (consts; lia).
  case_decide; [by right | by left].
Qed.

(** * Commands keep the array an array of bytes *)

Lemma kp_loop_mem_ok rem t i m m' :
  mem_ok m → kp_loop rem t i m = Some m' → mem_ok m'.
Proof.
  revert i m. induction rem as [| rem IH]; intros i m Hm Hrun.
  - by injection Hrun as <-.
  - cbn [kp_loop] in Hrun.
    destruct (rd m (get_address t i)) as [b |]; [| discriminate]. cbn in Hrun.
    destruct (bool_decide (b ≠ 0)).
    + cbn in Hrun. unfold deallocate_page in Hrun.
      destruct (wr m b 0) as [m1 |] eqn:Hw; [| discriminate]. cbn in Hrun.
      eapply IH; [| exact Hrun]. by eapply mem_ok_wr.
    + cbn in Hrun. by eapply IH.
Qed.

Lemma kill_process_mem_ok p m m' :
  mem_ok m → kill_process p m = Some m' → mem_ok m'.
Proof.
  intros Hm Hkill. unfold kill_process in Hkill.
  destruct (get_page_table p m) as [t |]; [| discriminate]. cbn in Hkill.
  destruct (kp_loop (Z.to_nat PAGE_COUNT) t 0 m) as [m1 |] eqn:Hrun;
    [| discriminate].
  cbn in Hkill. eapply mem_ok_wr; [| exact Hkill]. by eapply kp_loop_mem_ok.
Qed.

Lemma store_value_inv p a x m m' pa :
  store_value p a x m = Some (m', pa) →
  get_physical_addr p a m = Some pa ∧ wr m pa x = Some m'.
Proof.
  unfold store_value. intros Hst.
  destruct (get_physical_addr p a m) as [pa' |]; [| discriminate]. cbn in Hst.
  destruct (wr m pa' x) as [m1 |] eqn:Hw; [| discriminate]. cbn in Hst.
  by injection Hst as <- <-.
Qed.

Lemma exec_mem_ok c m m' : mem_ok m → exec c m = Some m' → mem_ok m'.
Proof.
  intros Hm Hex. destruct c as [p n | p | p a x | p a]; cbn in Hex.
  - destruct (new_process p n m) as [[m1 e] |] eqn:Hnp; [| discriminate].
    injection Hex as <-. by eapply new_process_mem_ok.
  - by eapply kill_process_mem_ok.
  - destruct (store_value p a x m) as [[m1 pa] |] eqn:Hst; [| discriminate].
    injection Hex as <-. apply store_value_inv in Hst as [_ Hw].
    by eapply mem_ok_wr.
  - destruct (load_value p a m); [| discriminate]. by injection Hex as <-.
Qed.

Lemma run_mem_ok cs m m' : mem_ok m → run cs m = Some m' → mem_ok m'.
Proof.
  revert m. induction cs as [| c cs IH]; intros m Hm Hrun.
  - by injection Hrun as <-.
  - cbn [run] in Hrun. destruct (exec c m) as [m1 |] eqn:Hex; [| discriminate].
    cbn in Hrun. eapply IH; [| exact Hrun]. by eapply exec_mem_ok.
Qed.

Lemma mem_ok_state_after cs : mem_ok (state_after cs).
Proof.
  unfold state_after. destruct (run cs initialize_mem) as [m |] eqn:Hrun.
  - eapply run_mem_ok; [exact mem_ok_initialize_mem | exact Hrun].
  - exact mem_ok_zero_mem.
Qed.

(** * The claim about a process that was never created *)

Lemma usage_01_Forall m :
  Forall (λ k, rd m k = Some 0 ∨ rd m k = Some 1) (seqZ 0 PAGE_COUNT) →
  usage_01 m.
Proof.
  intros Hall k Hk. apply (proj1 (Forall_forall _ _) Hall).
  apply elem_of_seqZ. lia.
Qed.

Lemma usage_01_after_np_0_2 : usage_01 (state_after [Cnp 0 2]).
Proof.
  apply usage_01_Forall. apply (bool_decide_unpack _). vm_compute. reflexivity.
Qed.

(** C9, as the code has it.  When the process-table slot of [p] holds 0
    and every usage byte holds one of the two values the allocator writes
    (1 for a page in use, 0 for a free one), [kill_process(p)] takes page
    0 for the page table: it clears the usage byte of page 1 and then the
    usage byte of page 0, and leaves every other byte as it was. *)
Theorem kill_unset_process (m : memory) (p : Z) :
  mem_ok m → get_page_table p m = Some 0 → usage_01 m →
  ∃ m', kill_process p m = Some m' ∧ rd m' 0 = Some 0 ∧ rd m' 1 = Some 0 ∧
    ∀ a, a ≠ 0 → a ≠ 1 → rd m' a = rd m a.
Proof.
  intros Hm Hslot H01. unfold kill_process. rewrite Hslot. cbn.
  destruct (kp_loop_zero (Z.to_nat PAGE_COUNT) 0 m Hm H01)
    as (m1 & -> & Hm1 & Hfr & _ & H1); [lia | consts; lia |].
  cbn. unfold deallocate_page.
  destruct (wr_ok m1 0 0) as [m' Hw]; [consts; lia |].
  assert (∀ a, rd m' a = if decide (a = 0) then Some 0 else rd m1 a) as Hrd
    by (intros a; apply (rd_wr _ _ _ _ a Hm1 Hw)).
  exists m'. split; [done |]. split; [| split].
  - rewrite Hrd. by rewrite decide_True.
  - rewrite Hrd. rewrite decide_False by lia. apply H1. consts. lia.
  - intros a Ha0 Ha1. rewrite Hrd. rewrite decide_False by done. by apply Hfr.
Qed.

Lemma kill_unset_process_witness :
  mem_ok (state_after [Cnp 0 2]) ∧
  get_page_table 5 (state_after [Cnp 0 2]) = Some 0 ∧
  usage_01 (state_after [Cnp 0 2]) ∧
  ∃ m', kill_process 5 (state_after [Cnp 0 2]) = Some m' ∧
    rd m' 0 = Some 0 ∧ rd m' 1 = Some 0 ∧
    ∀ a, a ≠ 0 → a ≠ 1 → rd m' a = rd (state_after [Cnp 0 2]) a.
Proof.
  assert (get_page_table 5 (state_after [Cnp 0 2]) = Some 0) as Hslot
    by (vm_compute; reflexivity).
  split; [exact (mem_ok_state_after _) |]. split; [exact Hslot |].
  split; [exact usage_01_after_np_0_2 |].
  exact (kill_unset_process _ 5 (mem_ok_state_after _) Hslot
           usage_01_after_np_0_2).
Defined.

(** C9 fails as stated: a usage byte need not be 0 or 1.  After [np 0
    10] process 0 has the page table 1 and the data pages 2 to 11; its
    virtual page 10 is not mapped, so [sb 0 2565 7] (page 10, offset 5)
    goes through entry 0 to physical address 5 and stores 7 in the usage
    byte of page 5.  The slot of process 9 is unset: [kp 9] reads the
    usage table as its page table, finds 7 at index 5 and clears the usage
    byte of page 7, a data page of process 0 that was in use. *)
Lemma kill_unset_process_fails :
  run [Cnp 0 10; Csb 0 2565 7] initialize_mem
    = Some (state_after [Cnp 0 10; Csb 0 2565 7]) ∧
  get_page_table 9 (state_after [Cnp 0 10; Csb 0 2565 7]) = Some 0 ∧
  rd (state_after [Cnp 0 10; Csb 0 2565 7]) 5 = Some 7 ∧
  rd (state_after [Cnp 0 10; Csb 0 2565 7]) 7 = Some 1 ∧
  kill_process 9 (state_after [Cnp 0 10; Csb 0 2565 7])
    = Some (state_after [Cnp 0 10; Csb 0 2565 7; Ckp 9]) ∧
  rd (state_after [Cnp 0 10; Csb 0 2565 7; Ckp 9]) 7 = Some 0.
Proof.
  split; [vm_compute; reflexivity |]. split; [vm_compute; reflexivity |].
  split; [vm_compute; reflexivity |]. split; [vm_compute; reflexivity |].
  split; vm_compute; reflexivity.
Qed.

(** * The claim about page 0 *)

(** The loop of [kill_process] over a page of the array stays in the
    array: the entries it reads are bytes, and every byte is an address of
    page zero. *)
Lemma kp_loop_total t rem i m :
  mem_ok m → 0 ≤ t < PAGE_COUNT → 0 ≤ i → i + Z.of_nat rem ≤ PAGE_COUNT →
  ∃ m', kp_loop rem t i m = Some m' ∧ mem_ok m'.
Proof.
  intros Hm Ht. revert i m Hm. induction rem as [| rem IH]; intros i m Hm Hi Hle.
  - by exists m.
  - cbn [kp_loop]. rewrite get_address_add by (consts; lia).
    destruct (rd_ok m (t * PAGE_SIZE + i) Hm) as (b & Hb & Hbyte); [consts; lia |].
    rewrite Hb. cbn.
    assert (∃ m1, (if bool_decide (b ≠ 0)
                   then deallocate_page b m else Some m) = Some m1 ∧ mem_ok m1)
      as (m1 & -> & Hm1).
    { case_bool_decide.
      - unfold deallocate_page.
        destruct (wr_ok m b 0) as [m1 Hw]; [consts; lia |].
        exists m1. split; [done | by eapply mem_ok_wr].
      - by exists m. }
    cbn. apply IH; [done | lia | lia].
Qed.

(** [kill_process] on a process whose slot byte is 0 ends with
    [deallocate_page(0)]. *)
Lemma kill_process_zero_slot p m :
  mem_ok m → get_page_table p m = Some 0 →
  ∃ m', kill_process p m = Some m' ∧ rd m' 0 = Some 0.
Proof.
  intros Hm Hslot. unfold kill_process. rewrite Hslot. cbn.
  destruct (kp_loop_total 0 (Z.to_nat PAGE_COUNT) 0 m Hm) as (m1 & -> & Hm1);
    [consts; lia | lia | consts; lia |].
  cbn. unfold deallocate_page.
  destruct (wr_ok m1 0 0) as [m' Hw]; [consts; lia |].
  exists m'. split; [done |]. by rewrite (rd_wr_eq _ _ _ _ Hm1 Hw).
Qed.

(** No command of [keeps_page0] clears the usage byte of page 0. *)
Lemma reachable_page0_in_use m :
  reachable_keeping_page0 m → mem_ok m ∧ ∃ b, rd m 0 = Some b ∧ b ≠ 0.
Proof.
  induction 1 as [| m c m' _ [Hm (b & Hb & Hnz)] Hsafe Hex].
  - split; [exact mem_ok_initialize_mem |]. exists 1. split; [| done].
    by rewrite rd_initialize_mem by (consts; lia).
  - pose proof (exec_mem_ok _ _ _ Hm Hex) as Hm'. split; [done |].
    assert (rd m' 0 ≠ Some 0) as Hgoal; [|
      destruct (rd_ok m' 0 Hm') as (b' & Hb' & _); [consts; lia |];
      exists b'; split; [done | congruence]].
    destruct c as [p n | p | p a x | p a]; cbn in Hex, Hsafe.
    + destruct (new_process p n m) as [[m1 e] |] eqn:Hnp; [| discriminate].
      injection Hex as ->.
      destruct (new_process_inv _ _ _ _ _ Hm Hnp)
        as [(_ & -> & _) | (t & m1 & m2 & Ht & Hfree & _ & _ & _ & Hinv & _)].
      { congruence. }
      destruct Hinv as [_ Hidx Hbound _ _].
      destruct Hbound as [[_ Hfull] | [-> _]]; [| congruence].
      apply Hfull; consts; lia.
    + destruct (get_page_table p m) as [t |] eqn:Hslot;
        [| by unfold kill_process in Hex; rewrite Hslot in Hex].
      pose proof (rd_byte _ _ _ Hm Hslot) as Hbyte.
      destruct (Z_lt_le_dec t PAGE_COUNT) as [Hlt | Hge];
        [| by rewrite (kill_process_bad_table _ _ _ Hslot Hge) in Hex].
      destruct (kill_process_spec p t m Hm Hslot) as (m1 & Hkill & _ & Hkf & _).
      { assert (t ≠ 0) by congruence. consts. lia. }
      assert (m1 = m') as -> by congruence.
      destruct (Hkf 0) as [Heq | [_ ?]]; [| lia]. rewrite Heq. congruence.
    + destruct (store_value p a x m) as [[m1 pa] |] eqn:Hst; [| discriminate].
      injection Hex as ->. apply store_value_inv in Hst as [Hpa Hw].
      rewrite (rd_wr _ _ _ _ 0 Hm Hw). case_decide as Hpa0; [| congruence].
      subst pa. intros [= Hx]. by apply Hsafe.
    + destruct (load_value p a m); [| discriminate]. injection Hex as <-.
      congruence.
Qed.

(** C2, as the code has it.  In every memory reached from
    [initialize_mem] by [np] and [lb] commands, by [kp] commands on
    processes whose slot byte is not 0 and by [sb] commands that do not
    store a zero byte at physical address 0, the usage byte of page 0 is
    not 0.  In every such memory a [kp] of a process whose slot byte is 0
    returns and leaves the usage byte of page 0 at 0: [kill_process] does
    deallocate page 0. *)
Theorem page0_stays_allocated (m : memory) :
  reachable_keeping_page0 m →
  (mem_ok m ∧ ∃ b, rd m 0 = Some b ∧ b ≠ 0) ∧
  ∀ p, get_page_table p m = Some 0 →
       ∃ m', kill_process p m = Some m' ∧ rd m' 0 = Some 0.
Proof.
  intros Hreach. pose proof (reachable_page0_in_use m Hreach) as [Hm Hb].
  split; [done |]. intros p Hslot. by apply kill_process_zero_slot.
Qed.

Lemma page0_stays_allocated_witness :
  reachable_keeping_page0 (state_after [Cnp 0 2; Csb 0 0 42; Ckp 0]) ∧
  (mem_ok (state_after [Cnp 0 2; Csb 0 0 42; Ckp 0]) ∧
   ∃ b, rd (state_after [Cnp 0 2; Csb 0 0 42; Ckp 0]) 0 = Some b ∧ b ≠ 0) ∧
  ∀ p, get_page_table p (state_after [Cnp 0 2; Csb 0 0 42; Ckp 0]) = Some 0 →
       ∃ m', kill_process p (state_after [Cnp 0 2; Csb 0 0 42; Ckp 0]) = Some m' ∧
             rd m' 0 = Some 0.
Proof.
  assert (reachable_keeping_page0 (state_after [Cnp 0 2; Csb 0 0 42; Ckp 0])) as Hreach.
  { apply (reach_step (state_after [Cnp 0 2; Csb 0 0 42]) (Ckp 0)).
    - apply (reach_step (state_after [Cnp 0 2]) (Csb 0 0 42)).
      + apply (reach_step initialize_mem (Cnp 0 2)).
        * exact reach_init.
        * exact I.
        * vm_compute. reflexivity.
      + intros [_ Hx]. vm_compute in Hx. discriminate.
      + vm_compute. reflexivity.
    - intros Hslot. vm_compute in Hslot. discriminate.
    - vm_compute. reflexivity. }
  split; [exact Hreach |]. exact (page0_stays_allocated _ Hreach).
Defined.

(** C2 fails as stated.  On the initial memory the slot of process 0 is
    unset; [kp 0] takes page 0 for its page table and ends by clearing the
    usage byte of page 0. *)
Lemma page0_freed_by_kill :
  get_page_table 0 initialize_mem = Some 0 ∧
  run [Ckp 0] initialize_mem = Some (state_after [Ckp 0]) ∧
  rd (state_after [Ckp 0]) 0 = Some 0.
Proof.
  split; [reflexivity |]. split; vm_compute; reflexivity.
Qed.

(** * The claim about stores and loads *)

(** C7, as the code has it.  When [store_value(p, a, x)] of a byte [x]
    writes at a physical address that is neither the process-table slot
    of [p] nor the page-table entry the translation of [a] went through,
    the [load_value(p, a)] that follows reads [x] at the same physical
    address. *)
Theorem store_load_roundtrip (m m' : memory) (p a x pa : Z) :
  mem_ok m → is_byte x →
  store_value p a x m = Some (m', pa) →
  pa ≠ p + 64 →
  (∀ t, get_page_table p m = Some t → pa ≠ get_address t (Z.shiftr a 8)) →
  load_value p a m' = Some (pa, x).
Proof.
  intros Hm Hx Hst Hslot Hentry.
  apply store_value_inv in Hst as [Hpa Hw].
  unfold load_value.
  assert (get_physical_addr p a m' = Some pa) as ->.
  { unfold get_physical_addr, get_page_table in *.
    rewrite (rd_wr_ne _ _ _ _ (p + 64) Hw) by congruence.
    destruct (rd m (p + 64)) as [t |] eqn:Ht; [| discriminate]. cbn in Hpa |- *.
    rewrite (rd_wr_ne _ _ _ _ (get_address t (Z.shiftr a 8)) Hw); [done |].
    intros Heq. by apply (Hentry t). }
  cbn. rewrite (rd_wr_eq _ _ _ _ Hm Hw). cbn. by rewrite mod_byte.
Qed.

Lemma store_load_roundtrip_witness :
  mem_ok (state_after [Cnp 0 2]) ∧ is_byte 42 ∧
  store_value 0 261 42 (state_after [Cnp 0 2])
    = Some (state_after [Cnp 0 2; Csb 0 261 42], 773) ∧
  773 ≠ 0 + 64 ∧
  (∀ t, get_page_table 0 (state_after [Cnp 0 2]) = Some t →
        773 ≠ get_address t (Z.shiftr 261 8)) ∧
  load_value 0 261 (state_after [Cnp 0 2; Csb 0 261 42]) = Some (773, 42).
Proof.
  assert (is_byte 42) as Hx by (consts; lia).
  assert (store_value 0 261 42 (state_after [Cnp 0 2])
          = Some (state_after [Cnp 0 2; Csb 0 261 42], 773))
    as Hst by (vm_compute; reflexivity).
  assert (773 ≠ 0 + 64) as Hslot by lia.
  assert (∀ t, get_page_table 0 (state_after [Cnp 0 2]) = Some t →
               773 ≠ get_address t (Z.shiftr 261 8)) as Hentry.
  { intros t Ht. vm_compute in Ht. injection Ht as <-. vm_compute. discriminate. }
  split; [exact (mem_ok_state_after _) |]. split; [exact Hx |].
  split; [exact Hst |]. split; [exact Hslot |]. split; [exact Hentry |].
  exact (store_load_roundtrip _ _ 0 261 42 773 (mem_ok_state_after _)
           Hx Hst Hslot Hentry).
Defined.

(** C7 fails as stated.  On the initial memory process 0 has no page
    table: virtual address 514 goes through page 0, whose byte 2 is 0, to
    physical address 2.  The store of 5 there changes that very byte, the
    load then goes to physical address 1282 and reads 0. *)
Lemma store_load_roundtrip_fails :
  store_value 0 514 5 initialize_mem = Some (state_after [Csb 0 514 5], 2) ∧
  load_value 0 514 (state_after [Csb 0 514 5]) = Some (1282, 0).
Proof.
  split; vm_compute; reflexivity.
Qed.

(** * The claim about a failing [new_process] *)

(** C8, as the code has it.  When the first [get_page] of
    [new_process(q, n)] returns 0xff, the call returns with the memory it
    was given (the slot of [q] with it).  And for process numbers with
    slots in page zero: whatever way [new_process(q, n)] returns, the
    slot of every other process whose page table is a page in use other
    than page 0 is unchanged, and so is every byte of that page table. *)
Theorem new_process_oom_frame (m : memory) (q n : Z) :
  mem_ok m →
  (∀ m1, get_page m = Some (m1, 255) →
         new_process q n m = Some (m, NpOomPageTable))
  ∧ (proc_in_zero_page q →
     ∀ m' e, new_process q n m = Some (m', e) →
     ∀ p t, proc_in_zero_page p → p ≠ q →
            get_page_table p m = Some t → 1 ≤ t < PAGE_COUNT →
            rd m t ≠ Some 0 →
            get_page_table p m' = Some t ∧
            ∀ o, 0 ≤ o < PAGE_SIZE →
                 get_phys_page t o m' = get_phys_page t o m).
Proof.
  intros Hm. split.
  - intros m1 Hg. unfold new_process.
    destruct (get_page_inv _ _ _ Hm Hg) as [(_ & -> & _) | (? & _)];
      [| consts; lia].
    rewrite Hg. by cbn.
  - intros [Hq0 Hq] m' e Hnp p t' [Hp0 Hp] Hpq Hslot Ht' Hused.
    destruct (new_process_inv _ _ _ _ _ Hm Hnp)
      as [(_ & -> & _) | (t & m1 & m2 & Ht & Hfree & _ & Hw1 & Hw2 & Hinv & _)];
      [done |].
    assert (t ≠ t') as Htt by congruence.
    assert (mem_ok m1) as Hm1 by (by eapply mem_ok_wr).
    assert (∀ a, PAGE_COUNT ≤ a → a ≠ 64 + q →
                 ¬ (t * PAGE_SIZE ≤ a < t * PAGE_SIZE + PAGE_COUNT) →
                 rd m' a = rd m a) as Hsame.
    { intros a Ha Haq Hat.
      rewrite (np_inv_frame _ _ _ _ Hinv a) by (consts; lia).
      rewrite (rd_wr_ne _ _ _ _ a Hw2) by done.
      rewrite (rd_wr_ne _ _ _ _ a Hw1) by (consts; lia). done. }
    split.
    + unfold get_page_table in *. rewrite Hsame; [done | ..]; consts; lia.
    + intros o Ho. unfold get_phys_page. apply Hsame; consts; lia.
Qed.

Lemma new_process_oom_frame_witness :
  mem_ok (state_after [Cnp 0 62]) ∧
  get_page (state_after [Cnp 0 62]) = Some (state_after [Cnp 0 62], 255) ∧
  new_process 1 5 (state_after [Cnp 0 62])
    = Some (state_after [Cnp 0 62], NpOomPageTable) ∧
  mem_ok (state_after [Cnp 0 2]) ∧
  proc_in_zero_page 1 ∧
  new_process 1 100 (state_after [Cnp 0 2])
    = Some (state_after [Cnp 0 2; Cnp 1 100], NpOomDataPage 59) ∧
  proc_in_zero_page 0 ∧ 0 ≠ 1 ∧
  get_page_table 0 (state_after [Cnp 0 2]) = Some 1 ∧
  1 ≤ 1 < PAGE_COUNT ∧
  rd (state_after [Cnp 0 2]) 1 ≠ Some 0 ∧
  get_page_table 0 (state_after [Cnp 0 2; Cnp 1 100]) = Some 1 ∧
  ∀ o, 0 ≤ o < PAGE_SIZE →
       get_phys_page 1 o (state_after [Cnp 0 2; Cnp 1 100])
       = get_phys_page 1 o (state_after [Cnp 0 2]).
Proof.
  assert (get_page (state_after [Cnp 0 62]) = Some (state_after [Cnp 0 62], 255))
    as Hg by (vm_compute; reflexivity).
  assert (proc_in_zero_page 1) as Hq by (unfold proc_in_zero_page; consts; lia).
  assert (proc_in_zero_page 0) as Hp by (unfold proc_in_zero_page; consts; lia).
  assert (new_process 1 100 (state_after [Cnp 0 2])
          = Some (state_after [Cnp 0 2; Cnp 1 100], NpOomDataPage 59))
    as Hnp by (vm_compute; reflexivity).
  assert (0 ≠ 1) as Hpq by lia.
  assert (get_page_table 0 (state_after [Cnp 0 2]) = Some 1)
    as Hslot by (vm_compute; reflexivity).
  assert (1 ≤ 1 < PAGE_COUNT) as Ht by (consts; lia).
  assert (rd (state_after [Cnp 0 2]) 1 ≠ Some 0) as Hused.
  { intros Hrd. vm_compute in Hrd. discriminate. }
  split; [exact (mem_ok_state_after _) |]. split; [exact Hg |].
  split; [exact (proj1 (new_process_oom_frame (state_after [Cnp 0 62]) 1 5
                          (mem_ok_state_after _)) _ Hg) |].
  split; [exact (mem_ok_state_after _) |]. split; [exact Hq |].
  split; [exact Hnp |]. split; [exact Hp |]. split; [exact Hpq |].
  split; [exact Hslot |]. split; [exact Ht |]. split; [exact Hused |].
  exact (proj2 (new_process_oom_frame (state_after [Cnp 0 2]) 1 100
                  (mem_ok_state_after _)) Hq _ _ Hnp 0 1 Hp Hpq Hslot Ht Hused).
Defined.

(** C8 fails as stated.  After [np 0 2] the page table of process 0 is
    page 1 and its entry 0 is page 2.  [np 192 100] runs out of pages at
    data page 59; before that it has written its page-table page, 4, into
    its slot at address 64 + 192 = 256, which is entry 0 of the page table
    of process 0. *)
Lemma new_process_oom_frame_fails :
  get_page_table 0 (state_after [Cnp 0 2]) = Some 1 ∧
  get_phys_page 1 0 (state_after [Cnp 0 2]) = Some 2 ∧
  new_process 192 100 (state_after [Cnp 0 2])
    = Some (state_after [Cnp 0 2; Cnp 192 100], NpOomDataPage 59) ∧
  get_phys_page 1 0 (state_after [Cnp 0 2; Cnp 192 100]) = Some 4.
Proof.
  split; [vm_compute; reflexivity |]. split; [vm_compute; reflexivity |].
  split; vm_compute; reflexivity.
Qed.

(** * The scenario of the specification, run on the embedding *)

(** [np 0 2] on the initial memory takes page 1 for the page table and
    pages 2 and 3 for the data; the slot of process 0 names page 1. *)
Example scenario_new_process :
  new_process 0 2 initialize_mem = Some (state_after [Cnp 0 2], NpDone) ∧
  take 6 (state_after [Cnp 0 2]) = [1; 1; 1; 1; 0; 0] ∧
  get_page_table 0 (state_after [Cnp 0 2]) = Some 1 ∧
  get_phys_page 1 0 (state_after [Cnp 0 2]) = Some 2 ∧
  get_phys_page 1 1 (state_after [Cnp 0 2]) = Some 3.
Proof.
  split; [vm_compute; reflexivity |]. split; [vm_compute; reflexivity |].
  split; [vm_compute; reflexivity |]. split; vm_compute; reflexivity.
Qed.

(** [sb 0 0 42] then [lb 0 0] prints 42, at physical address 512. *)
Example scenario_store_load :
  load_value 0 0 (state_after [Cnp 0 2; Csb 0 0 42]) = Some (512, 42).
Proof. vm_compute. reflexivity. Qed.

(** [kp 0] frees pages 1, 2 and 3: the usage table is the initial one. *)
Example scenario_kill_process :
  take (Z.to_nat PAGE_COUNT) (state_after [Cnp 0 2; Csb 0 0 42; Ckp 0])
  = take (Z.to_nat PAGE_COUNT) initialize_mem.
Proof. vm_compute. reflexivity. Qed.

(** With all 63 remaining pages taken, the next [np] reports the missing
    page table and changes nothing. *)
Example scenario_exhaustion :
  new_process 1 1 (state_after [Cnp 0 62])
  = Some (state_after [Cnp 0 62], NpOomPageTable).
Proof. vm_compute. reflexivity. Qed.

(** * Further properties: the list of free pages *)

Lemma filter_none {A} (P : A → Prop) `{!∀ x, Decision (P x)} (l : list A) :
  (∀ x, x ∈ l → ¬ P x) → filter P l = [].
Proof.
  induction l as [| x l IH]; intros Hno; [done |].
  rewrite filter_cons_False by (apply Hno; left).
  apply IH. intros y Hy. apply Hno. by right.
Qed.

Lemma filter_agree {A} (P Q : A → Prop)
    `{!∀ x, Decision (P x)} `{!∀ x, Decision (Q x)} (l : list A) :
  (∀ x, x ∈ l → P x ↔ Q x) → filter P l = filter Q l.
Proof.
  induction l as [| x l IH]; intros Hpq; [done |].
  assert (filter P l = filter Q l) as Htl
    by (apply IH; intros y Hy; apply Hpq; by right).
  destruct (decide (P x)) as [Hp | Hp].
  - rewrite !filter_cons_True; [by f_equal | by apply (Hpq x); [left |] | done].
  - rewrite !filter_cons_False; [done | | done].
    intros Hq. apply Hp. apply (Hpq x); [left | done].
Qed.

(** The first hit of a filter over an ascending range. *)
Lemma filter_seqZ_first (P : Z → Prop) `{!∀ x, Decision (P x)} i n j :
  i ≤ j < i + n → P j → (∀ k, i ≤ k < j → ¬ P k) →
  filter P (seqZ i n) = j :: filter P (seqZ (j + 1) (i + n - j - 1)).
Proof.
  intros Hj Hp Hleast.
  replace n with ((j - i) + (n - (j - i))) at 1 by lia.
  rewrite seqZ_app, filter_app by lia.
  rewrite (filter_none P (seqZ i (j - i)))
    by (intros k Hk; apply elem_of_seqZ in Hk; apply Hleast; lia).
  rewrite seqZ_cons by lia. cbn [app].
  rewrite filter_cons_True by (by replace (i + (j - i)) with j by lia).
  f_equal; [lia |]. f_equal. f_equal; lia.
Qed.

Lemma free_pages_elem m j :
  j ∈ free_pages m ↔ 0 ≤ j < PAGE_COUNT ∧ rd m j = Some 0.
Proof.
  unfold free_pages. rewrite list_elem_of_filter, elem_of_seqZ.
  split; intros [? ?]; split; try done; lia.
Qed.

Lemma free_pages_length m : Z.of_nat (length (free_pages m)) ≤ PAGE_COUNT.
Proof.
  unfold free_pages. pose proof (length_filter (λ j, rd m j = Some 0) (seqZ 0 PAGE_COUNT)) as Hlen.
  rewrite length_seqZ in Hlen. consts. lia.
Qed.

(** A write outside the usage table leaves the free pages as they are. *)
Lemma free_pages_wr_high m a x m' :
  wr m a x = Some m' → PAGE_COUNT ≤ a → free_pages m' = free_pages m.
Proof.
  intros Hw Ha. unfold free_pages. apply filter_agree.
  intros j Hj. apply elem_of_seqZ in Hj.
  rewrite (rd_wr_ne _ _ _ _ j Hw) by lia. done.
Qed.

(** [get_page] takes the head of the list of free pages. *)
(** [get_page] takes the head of the list of free pages. *)
Lemma get_page_free_pages m :
  mem_ok m →
  match free_pages m with
  | [] => exhausted m ∧ get_page m = Some (m, 255)
  | j :: rest =>
      ∃ m1, get_page m = Some (m1, j) ∧ wr m j 1 = Some m1 ∧
            free_pages m1 = rest ∧ 0 ≤ j < PAGE_COUNT ∧ rd m j = Some 0 ∧
            full_below j m ∧ Forall (λ d, j < d < PAGE_COUNT) rest
  end.
Proof.
  intros Hm.
  destruct (get_page_spec m Hm) as [(j & m1 & Hj & Hf & Hleast & Hw & Hg) | [Hex Hg]].
  - assert (∀ k, rd m1 k = if decide (k = j) then Some 1 else rd m k) as Hrd
      by (intros k; apply (rd_wr _ _ _ _ k Hm Hw)).
    assert (free_pages m
            = j :: filter (λ i, rd m i = Some 0) (seqZ (j + 1) (0 + PAGE_COUNT - j - 1)))
      as Hfree.
    { unfold free_pages. apply filter_seqZ_first; [lia | done |].
      intros k Hk. apply Hleast; lia. }
    rewrite Hfree. exists m1. do 2 (split; [done |]). split; [| split; [done |]].
    + unfold free_pages.
      replace PAGE_COUNT with ((j + 1) + (PAGE_COUNT - j - 1)) at 1 by lia.
      rewrite seqZ_app, filter_app by lia.
      rewrite (filter_none _ (seqZ 0 (j + 1))).
      * cbn [app]. replace (0 + (j + 1)) with (j + 1) by lia.
        replace (0 + PAGE_COUNT - j - 1) with (PAGE_COUNT - j - 1) by lia.
        apply filter_agree. intros k Hk. apply elem_of_seqZ in Hk.
        rewrite Hrd. by rewrite decide_False by lia.
      * intros k Hk. apply elem_of_seqZ in Hk. rewrite Hrd.
        case_decide; [done |]. apply Hleast; lia.
    + do 2 (split; [done |]). apply Forall_forall. intros d Hd.
      apply list_elem_of_filter in Hd as [_ Hd]. apply elem_of_seqZ in Hd. lia.
  - unfold free_pages. rewrite (filter_none _ (seqZ 0 PAGE_COUNT)); [done |].
    intros k Hk. apply elem_of_seqZ in Hk. apply Hex; lia.
Qed.

(** * Further properties: what [new_process] builds *)

(** The data-page loop over a page table [t] other than page 0 takes the
    free pages [ds] in order, one for each index from [v] on. *)
Lemma np_loop_exact t ds :
  1 ≤ t < PAGE_COUNT →
  ∀ rem v m rest,
    mem_ok m → 0 ≤ v → v + Z.of_nat (length ds) ≤ PAGE_COUNT →
    free_pages m = ds ++ rest →
    rem = length ds ∨ (rest = [] ∧ (length ds < rem)%nat) →
    ∃ m', np_loop rem t v m
          = Some (m', if decide (rem = length ds) then NpDone
                      else NpOomDataPage (v + Z.of_nat (length ds))) ∧
      mem_ok m' ∧ free_pages m' = rest ∧
      (∀ i d, ds !! i = Some d →
              rd m' (t * PAGE_SIZE + v + Z.of_nat i) = Some d ∧ rd m' d = Some 1) ∧
      (∀ a, a ∉ ds →
            ¬ (t * PAGE_SIZE + v ≤ a < t * PAGE_SIZE + v + Z.of_nat (length ds)) →
            rd m' a = rd m a).
Proof.
  intros Ht. induction ds as [| j ds IH]; intros rem v m rest Hm Hv Hlen Hfree Hrem.
  - cbn [app length] in *. destruct Hrem as [-> | [-> Hpos]].
    + exists m. rewrite decide_True by done.
      do 3 (split; [done |]). split; [| done].
      intros i d Hi. by rewrite lookup_nil in Hi.
    + destruct rem as [| rem]; [lia |]. rewrite decide_False by done.
      pose proof (get_page_free_pages m Hm) as Hg. rewrite Hfree in Hg.
      destruct Hg as [_ Hg]. exists m. cbn [np_loop]. rewrite Hg. cbn.
      split; [do 3 f_equal; lia |]. do 2 (split; [done |]). split; [| done].
      intros i d Hi. by rewrite lookup_nil in Hi.
  - destruct rem as [| rem]; [cbn in Hrem; lia |].
    pose proof (get_page_free_pages m Hm) as Hg. rewrite Hfree in Hg.
    cbn [app] in Hg.
    destruct Hg as (m1 & Hg & Hw1 & Hfree1 & Hj & Hjfree & _ & Habove).
    assert (mem_ok m1) as Hm1 by (by eapply mem_ok_wr).
    cbn [length] in Hlen.
    assert (get_address t v = t * PAGE_SIZE + v) as Ha
      by (apply get_address_add; consts; lia).
    destruct (wr_ok m1 (t * PAGE_SIZE + v) j) as [m2 Hw2]; [consts; lia |].
    assert (mem_ok m2) as Hm2 by (by eapply mem_ok_wr).
    assert (∀ a, rd m2 a = if decide (a = t * PAGE_SIZE + v) then Some j
                           else if decide (a = j) then Some 1 else rd m a) as Hrd.
    { intros a. rewrite (rd_wr _ _ _ _ a Hm1 Hw2), (rd_wr _ _ _ _ a Hm Hw1).
      rewrite (Z.mod_small j), (Z.mod_small 1); [done | lia | consts; lia]. }
    destruct (IH rem (v + 1) m2 rest Hm2) as (m' & Hrun & Hm' & Hfree' & Hent & Hframe).
    { lia. }
    { lia. }
    { rewrite (free_pages_wr_high _ _ _ _ Hw2) by (consts; lia). done. }
    { cbn [length] in Hrem. destruct Hrem as [? | [? ?]]; [left | right]; [| split];
        try done; lia. }
    assert (Forall (λ d, j < d < PAGE_COUNT) ds) as Hds
      by (by apply Forall_app in Habove as [? _]).
    exists m'. cbn [np_loop]. rewrite Hg. cbn.
    rewrite bool_decide_eq_false_2 by (consts; lia). rewrite Ha, Hw2. cbn.
    rewrite Hrun. split; [| split; [done | split; [done | split]]].
    + cbn [length]. destruct (decide (rem = length ds)) as [-> | Hne].
      * by rewrite decide_True.
      * rewrite decide_False by lia. do 3 f_equal. lia.
    + intros i d Hi. destruct i as [| i]; cbn in Hi.
      * injection Hi as <-. split.
        -- rewrite Hframe, Hrd.
           ++ replace (t * PAGE_SIZE + v + Z.of_nat 0) with (t * PAGE_SIZE + v) by lia.
              by rewrite decide_True.
           ++ intros Hin. apply (proj1 (Forall_forall _ _) Hds) in Hin. consts. lia.
           ++ lia.
        -- rewrite Hframe, Hrd.
           ++ rewrite decide_False by (consts; lia). by rewrite decide_True.
           ++ intros Hin. apply (proj1 (Forall_forall _ _) Hds) in Hin. lia.
           ++ consts. lia.
      * destruct (Hent i d Hi) as [He Hu]. split; [| done].
        by replace (t * PAGE_SIZE + v + Z.of_nat (S i))
          with (t * PAGE_SIZE + (v + 1) + Z.of_nat i) by lia.
    + intros a Hnot Hrange. cbn [length] in Hrange.
      rewrite Hframe, Hrd.
      * rewrite decide_False by lia.
        rewrite decide_False; [done |]. intros ->. apply Hnot. left.
      * intros Hin. apply Hnot. by right.
      * lia.
Qed.

(** [new_process] on a memory with page 0 in use, for a process number
    with its slot in page zero: the head of the free pages becomes the page
    table, the next ones the data pages. *)
Lemma new_process_exact m p n t fs :
  mem_ok m → rd m 0 ≠ Some 0 → proc_in_zero_page p →
  free_pages m = t :: fs →
  1 ≤ t < PAGE_COUNT ∧ rd m t = Some 0 ∧
  Forall (λ d, t < d < PAGE_COUNT ∧ rd m d = Some 0) fs ∧
  ∃ m', new_process p n m
        = Some (m', if decide (n ≤ Z.of_nat (length fs)) then NpDone
                    else NpOomDataPage (Z.of_nat (length fs))) ∧
    mem_ok m' ∧ free_pages m' = drop (Z.to_nat n) fs ∧
    rd m' (64 + p) = Some t ∧ rd m' t = Some 1 ∧
    (∀ i d, take (Z.to_nat n) fs !! i = Some d →
            rd m' (t * PAGE_SIZE + Z.of_nat i) = Some d ∧ rd m' d = Some 1) ∧
    (∀ a, a ≠ t → a ≠ 64 + p → a ∉ take (Z.to_nat n) fs →
          ¬ (t * PAGE_SIZE ≤ a
             < t * PAGE_SIZE + Z.of_nat (length (take (Z.to_nat n) fs))) →
          rd m' a = rd m a).
Proof.
  intros Hm H0 [Hp0 Hp] Hfree.
  pose proof (get_page_free_pages m Hm) as Hg. rewrite Hfree in Hg.
  destruct Hg as (m1 & Hg & Hw1 & Hfree1 & Ht & Htfree & _ & Habove).
  assert (1 ≤ t < PAGE_COUNT) as Ht1.
  { destruct (decide (t = 0)) as [-> | ?]; [congruence | lia]. }
  assert (Forall (λ d, t < d < PAGE_COUNT ∧ rd m d = Some 0) fs) as Hfs.
  { apply Forall_forall. intros d Hd. split.
    - by apply (proj1 (Forall_forall _ _) Habove).
    - assert (d ∈ free_pages m) as Hin by (rewrite Hfree; by right).
      by apply free_pages_elem in Hin as [_ ?]. }
  do 3 (split; [done |]).
  assert (mem_ok m1) as Hm1 by (by eapply mem_ok_wr).
  destruct (wr_ok m1 (64 + p) t) as [m2 Hw2]; [consts; lia |].
  assert (mem_ok m2) as Hm2 by (by eapply mem_ok_wr).
  assert (∀ a, rd m2 a = if decide (a = 64 + p) then Some t
                         else if decide (a = t) then Some 1 else rd m a) as Hrd.
  { intros a. rewrite (rd_wr _ _ _ _ a Hm1 Hw2), (rd_wr _ _ _ _ a Hm Hw1).
    rewrite (Z.mod_small t), (Z.mod_small 1); [done | lia | consts; lia]. }
  assert (free_pages m2 = fs) as Hfree2
    by (rewrite (free_pages_wr_high _ _ _ _ Hw2) by (consts; lia); done).
  pose proof (free_pages_length m2) as Hlen2. rewrite Hfree2 in Hlen2.
  set (ds := take (Z.to_nat n) fs).
  assert (Forall (λ d, t < d < PAGE_COUNT) ds) as Hds.
  { apply Forall_forall. intros d Hd. apply elem_of_take in Hd as (i & Hi & _).
    apply (proj1 (Forall_forall _ _) Habove). by eapply list_elem_of_lookup_2. }
  destruct (np_loop_exact t ds Ht1 (Z.to_nat n) 0 m2 (drop (Z.to_nat n) fs) Hm2)
    as (m' & Hrun & Hm' & Hfree' & Hent & Hframe).
  { lia. }
  { unfold ds. rewrite length_take. lia. }
  { unfold ds. by rewrite take_drop. }
  { unfold ds. rewrite length_take.
    destruct (decide (Z.to_nat n ≤ length fs)%nat) as [Hle | Hgt].
    - left. lia.
    - right. split; [apply drop_ge; lia | lia]. }
  exists m'. unfold new_process. rewrite Hg. cbn.
  rewrite bool_decide_eq_false_2 by (consts; lia). rewrite Hw2. cbn.
  rewrite Hrun. split; [| split; [done | split; [done | split; [| split; [| split]]]]].
  - unfold ds. rewrite length_take. do 2 f_equal.
    destruct (decide (n ≤ Z.of_nat (length fs))) as [Hle | Hgt].
    + rewrite decide_True by lia. done.
    + rewrite decide_False by lia. f_equal. lia.
  - rewrite Hframe, Hrd.
    + by rewrite decide_True.
    + intros Hin. apply (proj1 (Forall_forall _ _) Hds) in Hin. consts. lia.
    + consts. lia.
  - rewrite Hframe, Hrd.
    + rewrite decide_False by (consts; lia). by rewrite decide_True.
    + intros Hin. apply (proj1 (Forall_forall _ _) Hds) in Hin. lia.
    + consts. lia.
  - intros i d Hi. destruct (Hent i d Hi) as [He Hu]. split; [| done].
    by replace (t * PAGE_SIZE + Z.of_nat i) with (t * PAGE_SIZE + 0 + Z.of_nat i) by lia.
  - intros a Hat Hap Hads Hrange. rewrite Hframe, Hrd.
    + rewrite decide_False by done. by rewrite decide_False by done.
    + done.
    + fold ds in Hrange. lia.
Qed.

(** * Further properties: processes that own their pages *)

Lemma rd_initialize_mem_0 : rd initialize_mem 0 ≠ Some 0.
Proof. by rewrite rd_initialize_mem by (consts; lia). Qed.

(** The translation of an address in a mapped virtual page. *)
Lemma translate_mapped p t ds m v d o :
  owns p t ds m → ds !! v = Some d → 0 ≤ o < PAGE_SIZE →
  get_physical_addr p (Z.of_nat v * PAGE_SIZE + o) m = Some (d * PAGE_SIZE + o).
Proof.
  intros (Hp & Ht & Hslot & _ & Hlen & Hent) Hv Ho.
  destruct (Hent v d Hv) as (Hd & Hdr & _).
  pose proof (lookup_lt_Some _ _ _ Hv) as Hvlt.
  unfold get_physical_addr. rewrite Hslot. cbn.
  rewrite virt_page_of, offset_of by done.
  rewrite get_address_add by (consts; lia).
  unfold get_phys_page in Hd. rewrite Hd. cbn.
  change (Z.lor (Z.shiftl d 8) o) with (get_address d o).
  by rewrite get_address_add by (consts; lia).
Qed.


(** The pages [new_process] has taken are owned by the new process. *)
Lemma new_process_owns m p n t fs m' e :
  mem_ok m → rd m 0 ≠ Some 0 → proc_in_zero_page p →
  free_pages m = t :: fs → new_process p n m = Some (m', e) →
  owns p t (take (Z.to_nat n) fs) m' ∧
  Z.of_nat (length (take (Z.to_nat n) fs)) = np_mapped n e.
Proof.
  intros Hm H0 Hp Hfree Hnp.
  destruct (new_process_exact m p n t fs Hm H0 Hp Hfree)
    as (Ht & Htfree & Hfs & m'' & Hrun & Hm' & Hfree' & Hslot & Hused & Hent & Hframe).
  rewrite Hrun in Hnp. injection Hnp as <- <-.
  pose proof (free_pages_length m) as Hlen. rewrite Hfree in Hlen. cbn in Hlen.
  split.
  - split; [done |]. split; [done |]. split; [| split; [| split]].
    + unfold get_page_table. by rewrite Z.add_comm.
    + congruence.
    + rewrite length_take. consts. lia.
    + intros i d Hi. destruct (Hent i d Hi) as [He Hu].
      assert (d ∈ fs) as Hin.
      { apply lookup_take_Some in Hi as [Hi _]. by eapply list_elem_of_lookup_2. }
      apply (proj1 (Forall_forall _ _) Hfs) in Hin as [Hd _].
      split; [done |]. split; [lia |]. split; [lia | congruence].
  - rewrite length_take. case_decide; cbn; lia.
Qed.


Lemma load_mapped p t ds m v d o :
  owns p t ds m → ds !! v = Some d → 0 ≤ o < PAGE_SIZE →
  load_value p (Z.of_nat v * PAGE_SIZE + o) m
  = b ← rd m (d * PAGE_SIZE + o); Some (d * PAGE_SIZE + o, b).
Proof.
  intros Hown Hv Ho. unfold load_value.
  by rewrite (translate_mapped _ _ _ _ _ _ _ Hown Hv Ho).
Qed.

Lemma owns_after_np_0_2 : owns 0 1 [2; 3] (state_after [Cnp 0 2]).
Proof.
  split; [unfold proc_in_zero_page; consts; lia |].
  split; [consts; lia |]. split; [vm_compute; reflexivity |].
  split; [intros H; vm_compute in H; discriminate |].
  split; [cbn; consts; lia |].
  intros i d Hi. destruct i as [| [| i]]; cbn in Hi; [| | discriminate];
    injection Hi as <-.
  - split; [vm_compute; reflexivity |]. split; [consts; lia |]. split; [lia |].
    intros H; vm_compute in H; discriminate.
  - split; [vm_compute; reflexivity |]. split; [consts; lia |]. split; [lia |].
    intros H; vm_compute in H; discriminate.
Qed.


(** X1.  First fit, for a whole process.  On a memory with page 0 in use
    and free pages [t :: fs] (in ascending order), [new_process(p, n)] for
    a process number with its slot in page zero takes [t] for the page
    table and the next [n] free pages for virtual pages [0 .. n-1],
    marking them in use; with fewer than [n] pages in [fs] it maps them
    all and returns at the data-page diagnostic with the index
    [length fs].  The pages left free are the rest of [fs]. *)
Theorem new_process_first_fit (m : memory) (p n t : Z) (fs : list Z) :
  mem_ok m → rd m 0 ≠ Some 0 → proc_in_zero_page p →
  free_pages m = t :: fs →
  ∃ m', new_process p n m
        = Some (m', if decide (n ≤ Z.of_nat (length fs)) then NpDone
                    else NpOomDataPage (Z.of_nat (length fs))) ∧
    get_page_table p m' = Some t ∧ rd m' t = Some 1 ∧
    (∀ i d, take (Z.to_nat n) fs !! i = Some d →
            get_phys_page t (Z.of_nat i) m' = Some d ∧ rd m' d = Some 1) ∧
    free_pages m' = drop (Z.to_nat n) fs.
Proof.
  intros Hm H0 Hp Hfree.
  destruct (new_process_exact m p n t fs Hm H0 Hp Hfree)
    as (_ & _ & _ & m' & Hrun & _ & Hfree' & Hslot & Hused & Hent & _).
  exists m'. split; [done |]. split; [| split; [done | split; [done | done]]].
  unfold get_page_table. by rewrite Z.add_comm.
Qed.

Lemma new_process_first_fit_witness :
  mem_ok initialize_mem ∧ rd initialize_mem 0 ≠ Some 0 ∧ proc_in_zero_page 3 ∧
  free_pages initialize_mem = 1 :: seqZ 2 62 ∧
  ∃ m', new_process 3 100 initialize_mem
        = Some (m', if decide (100 ≤ Z.of_nat (length (seqZ 2 62))) then NpDone
                    else NpOomDataPage (Z.of_nat (length (seqZ 2 62)))) ∧
    get_page_table 3 m' = Some 1 ∧ rd m' 1 = Some 1 ∧
    (∀ i d, take (Z.to_nat 100) (seqZ 2 62) !! i = Some d →
            get_phys_page 1 (Z.of_nat i) m' = Some d ∧ rd m' d = Some 1) ∧
    free_pages m' = drop (Z.to_nat 100) (seqZ 2 62).
Proof.
  assert (proc_in_zero_page 3) as Hp by (unfold proc_in_zero_page; consts; lia).
  assert (free_pages initialize_mem = 1 :: seqZ 2 62) as Hfree
    by (vm_compute; reflexivity).
  split; [exact mem_ok_initialize_mem |]. split; [exact rd_initialize_mem_0 |].
  split; [exact Hp |]. split; [exact Hfree |].
  exact (new_process_first_fit initialize_mem 3 100 1 (seqZ 2 62)
           mem_ok_initialize_mem rd_initialize_mem_0 Hp Hfree).
Defined.

(** X2.  What [new_process] never writes.  Under the same conditions a
    call that returns has changed no byte but the usage bytes of the pages
    it took, the slot of the process and the page-table entries of the
    virtual pages it mapped: the page-table page is not cleared, entries
    from the number of mapped pages on keep the bytes the page held. *)
Theorem new_process_changes_only (m m' : memory) (p n t : Z) (fs : list Z)
    (e : np_exit) :
  mem_ok m → rd m 0 ≠ Some 0 → proc_in_zero_page p →
  free_pages m = t :: fs →
  new_process p n m = Some (m', e) →
  ∀ a, a ≠ t → a ∉ take (Z.to_nat n) fs → a ≠ 64 + p →
       ¬ (t * PAGE_SIZE ≤ a < t * PAGE_SIZE + np_mapped n e) →
       rd m' a = rd m a.
Proof.
  intros Hm H0 Hp Hfree Hnp a Hat Hads Hap Hrange.
  destruct (new_process_owns _ _ _ _ _ _ _ Hm H0 Hp Hfree Hnp) as [_ Hlen].
  destruct (new_process_exact m p n t fs Hm H0 Hp Hfree)
    as (_ & _ & _ & m'' & Hrun & _ & _ & _ & _ & _ & Hframe).
  rewrite Hrun in Hnp. injection Hnp as <- <-.
  apply Hframe; try done. by rewrite Hlen.
Qed.

Lemma new_process_changes_only_witness :
  mem_ok initialize_mem ∧ rd initialize_mem 0 ≠ Some 0 ∧ proc_in_zero_page 0 ∧
  free_pages initialize_mem = 1 :: seqZ 2 62 ∧
  new_process 0 2 initialize_mem = Some (state_after [Cnp 0 2], NpDone) ∧
  ∀ a, a ≠ 1 → a ∉ take (Z.to_nat 2) (seqZ 2 62) → a ≠ 64 + 0 →
       ¬ (1 * PAGE_SIZE ≤ a < 1 * PAGE_SIZE + np_mapped 2 NpDone) →
       rd (state_after [Cnp 0 2]) a = rd initialize_mem a.
Proof.
  assert (proc_in_zero_page 0) as Hp by (unfold proc_in_zero_page; consts; lia).
  assert (free_pages initialize_mem = 1 :: seqZ 2 62) as Hfree
    by (vm_compute; reflexivity).
  assert (new_process 0 2 initialize_mem = Some (state_after [Cnp 0 2], NpDone))
    as Hnp by (vm_compute; reflexivity).
  split; [exact mem_ok_initialize_mem |]. split; [exact rd_initialize_mem_0 |].
  split; [exact Hp |]. split; [exact Hfree |]. split; [exact Hnp |].
  exact (new_process_changes_only initialize_mem _ 0 2 1 (seqZ 2 62) NpDone
           mem_ok_initialize_mem rd_initialize_mem_0 Hp Hfree Hnp).
Defined.







(** * Further properties: what [kill_process] frees *)

(** The loop of [kill_process] changes no byte whose address is not a
    non-zero entry it reads. *)
Lemma kp_loop_only t rem i m m' a :
  mem_ok m → 1 ≤ t < PAGE_COUNT → 0 ≤ i → i + Z.of_nat rem ≤ PAGE_COUNT →
  kp_loop rem t i m = Some m' →
  (∀ u, i ≤ u < i + Z.of_nat rem → rd m (t * PAGE_SIZE + u) = Some a → a = 0) →
  rd m' a = rd m a.
Proof.
  intros Hm Ht. revert i m Hm. induction rem as [| rem IH]; intros i m Hm Hi Hle Hrun Hno.
  - by injection Hrun as <-.
  - cbn [kp_loop] in Hrun. rewrite get_address_add in Hrun by (consts; lia).
    destruct (rd_ok m (t * PAGE_SIZE + i) Hm) as (b & Hb & Hbyte); [consts; lia |].
    rewrite Hb in Hrun. cbn in Hrun.
    destruct (decide (b = 0)) as [-> | Hnz].
    + rewrite bool_decide_eq_false_2 in Hrun by tauto. cbn in Hrun.
      apply (IH (i + 1) m); [done | lia | lia | done |].
      intros u Hu. apply Hno. lia.
    + rewrite bool_decide_eq_true_2 in Hrun by done.
      unfold deallocate_page in Hrun.
      destruct (wr m b 0) as [m1 |] eqn:Hw; [| discriminate]. cbn in Hrun.
      assert (a ≠ b) as Hab.
      { intros ->. apply Hnz. apply (Hno i); [lia | done]. }
      rewrite (IH (i + 1) m1); [by apply (rd_wr_ne _ _ _ _ _ Hw) | | lia | lia | done |].
      * by eapply mem_ok_wr.
      * intros u Hu Hr. apply (Hno u); [lia |].
        rewrite (rd_wr_ne _ _ _ _ _ Hw) in Hr; [done | consts; lia].
Qed.

(** [kill_process] on a page table other than page 0 clears the named
    bytes and changes no other. *)
Lemma kill_process_exact p t m :
  mem_ok m → get_page_table p m = Some t → 1 ≤ t < PAGE_COUNT →
  ∃ m', kill_process p m = Some m' ∧ mem_ok m' ∧
    (∀ a, named_by t m a → rd m' a = Some 0) ∧
    (∀ a, ¬ named_by t m a → rd m' a = rd m a).
Proof.
  intros Hm Hslot Ht.
  destruct (kill_process_spec p t m Hm Hslot Ht) as (m' & Hkill & Hm' & _ & Hfree & Hent).
  exists m'. do 2 (split; [done |]). split.
  - intros a [-> | (Hnz & u & Hu & Hr)]; [done | by apply (Hent u)].
  - intros a Hnot. unfold kill_process in Hkill. rewrite Hslot in Hkill. cbn in Hkill.
    destruct (kp_loop (Z.to_nat PAGE_COUNT) t 0 m) as [m1 |] eqn:Hrun; [| discriminate].
    cbn in Hkill. unfold deallocate_page in Hkill.
    rewrite (rd_wr_ne _ _ _ _ _ Hkill) by (intros ->; apply Hnot; by left).
    apply (kp_loop_only t (Z.to_nat PAGE_COUNT) 0 m m1 a Hm Ht); [lia | consts; lia | done |].
    intros u Hu Hr. destruct (decide (a = 0)) as [? | Hnz]; [done |].
    exfalso. apply Hnot. right. split; [done |]. exists u. split; [consts; lia | done].
Qed.

(** * The claim about reclamation *)

(** C3, as the code has it.  Let [p] be a process number whose slot lies
    in page zero, and let [new_process(p, n)] have mapped all [n] data
    pages on a memory with page 0 in use and free pages [t :: fs].  Then
    [p] owns the page table [t] and the [n] data pages it was given, the
    first [n] pages of [fs].  In every memory in which these pages are
    still mapped ([p] still owns them), [kill_process(p)] returns, and
    after it the usage byte of the page table [t] and of every one of the
    data pages is 0. *)
Theorem kill_process_reclaims (m0 m1 : memory) (p n t : Z) (fs : list Z) :
  mem_ok m0 → rd m0 0 ≠ Some 0 → proc_in_zero_page p →
  free_pages m0 = t :: fs →
  new_process p n m0 = Some (m1, NpDone) →
  (mem_ok m1 ∧ owns p t (take (Z.to_nat n) fs) m1 ∧
   Z.of_nat (length (take (Z.to_nat n) fs)) = Z.max 0 n) ∧
  ∀ m, mem_ok m → owns p t (take (Z.to_nat n) fs) m →
    ∃ m2, kill_process p m = Some m2 ∧ rd m2 t = Some 0 ∧
      ∀ d, d ∈ take (Z.to_nat n) fs → rd m2 d = Some 0.
Proof.
  intros Hm H0 Hp Hfree Hnp.
  destruct (new_process_owns _ _ _ _ _ _ _ Hm H0 Hp Hfree Hnp) as [Hown Hlen].
  split; [split; [by eapply new_process_mem_ok | done] |].
  intros m Hmm (_ & Ht & Hslot & _ & _ & Hent).
  destruct (kill_process_exact p t m Hmm Hslot Ht) as (m2 & Hkill & _ & Hz & _).
  exists m2. split; [done |]. split; [apply Hz; by left |].
  intros d Hd. apply list_elem_of_lookup_1 in Hd as [i Hi].
  destruct (Hent _ _ Hi) as (Hd & Hdr & _ & _).
  apply Hz. right. split; [lia |]. exists (Z.of_nat i). split; [| done].
  apply lookup_lt_Some in Hi. rewrite length_take in Hi.
  pose proof (free_pages_length m0) as Hl. rewrite Hfree in Hl. cbn in Hl.
  consts. lia.
Qed.

Lemma kill_process_reclaims_witness :
  mem_ok initialize_mem ∧ rd initialize_mem 0 ≠ Some 0 ∧ proc_in_zero_page 0 ∧
  free_pages initialize_mem = 1 :: seqZ 2 62 ∧
  new_process 0 2 initialize_mem = Some (state_after [Cnp 0 2], NpDone) ∧
  (mem_ok (state_after [Cnp 0 2]) ∧
   owns 0 1 (take (Z.to_nat 2) (seqZ 2 62)) (state_after [Cnp 0 2]) ∧
   Z.of_nat (length (take (Z.to_nat 2) (seqZ 2 62))) = Z.max 0 2) ∧
  ∀ m, mem_ok m → owns 0 1 (take (Z.to_nat 2) (seqZ 2 62)) m →
    ∃ m2, kill_process 0 m = Some m2 ∧ rd m2 1 = Some 0 ∧
      ∀ d, d ∈ take (Z.to_nat 2) (seqZ 2 62) → rd m2 d = Some 0.
Proof.
  assert (proc_in_zero_page 0) as Hp by (unfold proc_in_zero_page; consts; lia).
  assert (free_pages initialize_mem = 1 :: seqZ 2 62) as Hfree
    by (vm_compute; reflexivity).
  assert (new_process 0 2 initialize_mem = Some (state_after [Cnp 0 2], NpDone))
    as Hnp by (vm_compute; reflexivity).
  split; [exact mem_ok_initialize_mem |]. split; [exact rd_initialize_mem_0 |].
  split; [exact Hp |]. split; [exact Hfree |]. split; [exact Hnp |].
  exact (kill_process_reclaims initialize_mem _ 0 2 1 (seqZ 2 62)
           mem_ok_initialize_mem rd_initialize_mem_0 Hp Hfree Hnp).
Defined.

(** C3 fails as stated, in two ways.  When page 0 is free: [kp 0] on the
    initial memory frees page 0 (the slot of process 0 is unset); [np 0 3]
    then takes page 0 as the page table of process 0 and maps pages 1, 2
    and 3, all three data pages; the second [kp 0] reads the usage table
    as the page table while it clears it, skips the entry of page 2, and
    page 2 stays in use.  When the slot lies outside page zero: [np 192 2]
    on the initial memory builds the page table in page 1 and maps pages 2
    and 3, but the entry write for virtual page 0 lands on the slot
    [mem[256]]; [kp 192] then takes page 2 for the page table, and the
    page table 1 and the data page 3 stay in use. *)
Lemma kill_process_reclaims_fails :
  (run [Ckp 0] initialize_mem = Some (state_after [Ckp 0]) ∧
   new_process 0 3 (state_after [Ckp 0])
     = Some (state_after [Ckp 0; Cnp 0 3], NpDone) ∧
   get_page_table 0 (state_after [Ckp 0; Cnp 0 3]) = Some 0 ∧
   get_phys_page 0 1 (state_after [Ckp 0; Cnp 0 3]) = Some 2 ∧
   kill_process 0 (state_after [Ckp 0; Cnp 0 3])
     = Some (state_after [Ckp 0; Cnp 0 3; Ckp 0]) ∧
   rd (state_after [Ckp 0; Cnp 0 3; Ckp 0]) 2 = Some 3)
  ∧ (get_page initialize_mem = Some (<[1%nat := 1]> initialize_mem, 1) ∧
     new_process 192 2 initialize_mem = Some (state_after [Cnp 192 2], NpDone) ∧
     get_phys_page 1 0 (state_after [Cnp 192 2]) = Some 2 ∧
     get_phys_page 1 1 (state_after [Cnp 192 2]) = Some 3 ∧
     kill_process 192 (state_after [Cnp 192 2])
       = Some (state_after [Cnp 192 2; Ckp 192]) ∧
     rd (state_after [Cnp 192 2; Ckp 192]) 1 = Some 1 ∧
     rd (state_after [Cnp 192 2; Ckp 192]) 3 = Some 1).
Proof.
  split.
  - split; [vm_compute; reflexivity |]. split; [vm_compute; reflexivity |].
    split; [vm_compute; reflexivity |]. split; [vm_compute; reflexivity |].
    split; vm_compute; reflexivity.
  - split; [vm_compute; reflexivity |]. split; [vm_compute; reflexivity |].
    split; [vm_compute; reflexivity |]. split; [vm_compute; reflexivity |].
    split; [vm_compute; reflexivity |]. split; vm_compute; reflexivity.
Qed.

(** * Further properties: [kill_process] and the pages of a process *)

(** X6.  What [kill_process] frees.  For a process whose slot names a
    page [t] of the array other than page 0, [kill_process] returns and
    clears exactly the bytes at address [t] and at the addresses that are,
    before the call, non-zero entries among the first [PAGE_COUNT] bytes of
    page [t]; the byte at every other address is as before. *)
Theorem kill_process_frees_named (m : memory) (p t : Z) :
  mem_ok m → get_page_table p m = Some t → 1 ≤ t < PAGE_COUNT →
  ∃ m', kill_process p m = Some m' ∧
    (∀ a, named_by t m a → rd m' a = Some 0) ∧
    (∀ a, ¬ named_by t m a → rd m' a = rd m a).
Proof.
  intros Hm Hslot Ht.
  destruct (kill_process_exact p t m Hm Hslot Ht) as (m' & Hkill & _ & Hz & Hk).
  by exists m'.
Qed.

Lemma kill_process_frees_named_witness :
  mem_ok (state_after [Cnp 0 2]) ∧
  get_page_table 0 (state_after [Cnp 0 2]) = Some 1 ∧ 1 ≤ 1 < PAGE_COUNT ∧
  ∃ m', kill_process 0 (state_after [Cnp 0 2]) = Some m' ∧
    (∀ a, named_by 1 (state_after [Cnp 0 2]) a → rd m' a = Some 0) ∧
    (∀ a, ¬ named_by 1 (state_after [Cnp 0 2]) a →
          rd m' a = rd (state_after [Cnp 0 2]) a).
Proof.
  assert (get_page_table 0 (state_after [Cnp 0 2]) = Some 1) as Hslot
    by (vm_compute; reflexivity).
  assert (1 ≤ 1 < PAGE_COUNT) as Ht by (consts; lia).
  split; [exact (mem_ok_state_after _) |]. split; [exact Hslot |].
  split; [exact Ht |].
  exact (kill_process_frees_named _ 0 1 (mem_ok_state_after _) Hslot Ht).
Defined.

(** X7.  Create, then kill.  On a memory with page 0 in use, let the
    first free page [t] hold zero in its first [PAGE_COUNT] bytes, and let
    [p] be a process number whose slot lies in page zero.  After
    [new_process(p, n)], whether it mapped all [n] pages or ran out of
    pages on the way, [kill_process(p)] gives back every page: the free
    pages are those before the creation, and the memory differs from the
    one before only in the slot of [p] and in the page-table entries
    that were written. *)
Theorem new_then_kill_restores (m m1 : memory) (p n t : Z) (fs : list Z)
    (e : np_exit) :
  mem_ok m → rd m 0 ≠ Some 0 → proc_in_zero_page p →
  free_pages m = t :: fs →
  (∀ u, 0 ≤ u < PAGE_COUNT → rd m (t * PAGE_SIZE + u) = Some 0) →
  new_process p n m = Some (m1, e) →
  ∃ m2, kill_process p m1 = Some m2 ∧
    free_pages m2 = free_pages m ∧
    ∀ a, a ≠ 64 + p →
         ¬ (t * PAGE_SIZE ≤ a < t * PAGE_SIZE + np_mapped n e) →
         rd m2 a = rd m a.
Proof.
  intros Hm H0 Hp Hfree Hclean Hnp.
  destruct (new_process_owns _ _ _ _ _ _ _ Hm H0 Hp Hfree Hnp) as [Hown Hlen].
  destruct (new_process_exact m p n t fs Hm H0 Hp Hfree)
    as (Ht & Htfree & Hfs & m'' & Hrun & Hm1 & _ & _ & _ & Hent & Hframe).
  rewrite Hrun in Hnp. injection Hnp as <- <-.
  set (ds := take (Z.to_nat n) fs) in *.
  pose proof Hown as (_ & _ & Hslot & _ & _ & _).
  destruct (kill_process_exact p t m'' Hm1 Hslot Ht) as (m2 & Hkill & Hm2 & Hz & Hk).
  assert (∀ a, a ∈ ds → 0 < a < PAGE_COUNT ∧ rd m a = Some 0) as Hds.
  { intros a Ha. apply elem_of_take in Ha as (i & Hi & _).
    apply list_elem_of_lookup_2 in Hi.
    apply (proj1 (Forall_forall _ _) Hfs) in Hi as [? ?]. split; [lia | done]. }
  destruct Hp as [Hp0 Hp1].
  assert (∀ a, a ≠ 64 + p →
               ¬ (t * PAGE_SIZE ≤ a < t * PAGE_SIZE + Z.of_nat (length ds)) →
               rd m2 a = rd m a) as Hsame.
  { intros a Hap Hrange.
    destruct (decide (a = t)) as [-> | Hat].
    { rewrite Hz by (by left). done. }
    destruct (decide (a ∈ ds)) as [Hin | Hnin].
    { apply list_elem_of_lookup_1 in Hin as Hi. destruct Hi as [i Hi].
      destruct (Hent i a Hi) as [Hentry _]. destruct (Hds a Hin) as [Har Haf].
      pose proof (lookup_lt_Some _ _ _ Hi) as Hilt.
      assert (Z.of_nat (length ds) ≤ PAGE_COUNT) as Hdslen.
      { pose proof (free_pages_length m) as Hl. rewrite Hfree in Hl. cbn in Hl.
        unfold ds. rewrite length_take. lia. }
      rewrite Hz; [done |]. right. split; [lia |].
      exists (Z.of_nat i). split; [lia | done]. }
    rewrite Hk; [by apply Hframe |].
    intros [-> | (Hnz & u & Hu & Hr)]; [done |].
    destruct (Z_lt_le_dec u (Z.of_nat (length ds))) as [Hlt | Hge].
    - destruct (lookup_lt_is_Some_2 ds (Z.to_nat u)) as [d Hd]; [lia |].
      destruct (Hent _ _ Hd) as [Hentry _].
      replace (Z.of_nat (Z.to_nat u)) with u in Hentry by lia.
      assert (d = a) as -> by congruence.
      apply Hnin. by eapply list_elem_of_lookup_2.
    - rewrite Hframe in Hr.
      + rewrite Hclean in Hr by done. congruence.
      + consts. lia.
      + consts. lia.
      + intros Hin. apply Hds in Hin. consts. lia.
      + lia. }
  exists m2. split; [done |]. split.
  - unfold free_pages. apply filter_agree. intros j Hj. apply elem_of_seqZ in Hj.
    rewrite Hsame; [done | consts; lia | consts; lia].
  - intros a Hap Hrange. apply Hsame; [done |]. by rewrite Hlen.
Qed.

Lemma new_then_kill_restores_witness :
  mem_ok initialize_mem ∧ rd initialize_mem 0 ≠ Some 0 ∧ proc_in_zero_page 0 ∧
  free_pages initialize_mem = 1 :: seqZ 2 62 ∧
  (∀ u, 0 ≤ u < PAGE_COUNT → rd initialize_mem (1 * PAGE_SIZE + u) = Some 0) ∧
  new_process 0 100 initialize_mem
    = Some (state_after [Cnp 0 100], NpOomDataPage 62) ∧
  ∃ m2, kill_process 0 (state_after [Cnp 0 100]) = Some m2 ∧
    free_pages m2 = free_pages initialize_mem ∧
    ∀ a, a ≠ 64 + 0 →
         ¬ (1 * PAGE_SIZE ≤ a < 1 * PAGE_SIZE + np_mapped 100 (NpOomDataPage 62)) →
         rd m2 a = rd initialize_mem a.
Proof.
  assert (proc_in_zero_page 0) as Hp by (unfold proc_in_zero_page; consts; lia).
  assert (free_pages initialize_mem = 1 :: seqZ 2 62) as Hfree
    by (vm_compute; reflexivity).
  assert (∀ u, 0 ≤ u < PAGE_COUNT → rd initialize_mem (1 * PAGE_SIZE + u) = Some 0)
    as Hclean.
  { intros u Hu. rewrite rd_initialize_mem by (consts; lia).
    rewrite decide_False by (consts; lia). done. }
  assert (new_process 0 100 initialize_mem
          = Some (state_after [Cnp 0 100], NpOomDataPage 62))
    as Hnp by (vm_compute; reflexivity).
  split; [exact mem_ok_initialize_mem |]. split; [exact rd_initialize_mem_0 |].
  split; [exact Hp |]. split; [exact Hfree |]. split; [exact Hclean |].
  split; [exact Hnp |].
  exact (new_then_kill_restores initialize_mem _ 0 100 1 (seqZ 2 62) _
           mem_ok_initialize_mem rd_initialize_mem_0 Hp Hfree Hclean Hnp).
Defined.



(** * Further properties: the allocator on any memory *)

(** X9.  Consecutive allocations, from any memory.  [n] consecutive calls
    of [get_page] return the free pages in ascending order and, once
    these are used up, 0xff for every further call; the pages left free
    are the rest of the list. *)
Theorem get_pages_free_list (m : memory) (n : nat) :
  mem_ok m →
  ∃ m', get_pages n m
        = Some (m', take n (free_pages m)
                    ++ replicate (n - length (free_pages m)) 255) ∧
    mem_ok m' ∧ free_pages m' = drop n (free_pages m).
Proof.
  revert m. induction n as [| n IH]; intros m Hm.
  - exists m. by rewrite take_0, drop_0.
  - pose proof (get_page_free_pages m Hm) as Hg.
    destruct (free_pages m) as [| j rest] eqn:Hfree.
    + destruct Hg as [_ Hg]. destruct (IH m Hm) as (m' & Hrun & Hm' & Hfree').
      rewrite Hfree in Hrun, Hfree'. exists m'.
      cbn [get_pages]. rewrite Hg. cbn -[get_pages]. rewrite Hrun. cbn.
      rewrite take_nil, drop_nil in *. by rewrite Nat.sub_0_r.
    + destruct Hg as (m1 & Hg & Hw & Hfree1 & _).
      destruct (IH m1) as (m' & Hrun & Hm' & Hfree'); [by eapply mem_ok_wr |].
      rewrite Hfree1 in Hrun, Hfree'. exists m'.
      cbn [get_pages]. rewrite Hg. cbn -[get_pages]. rewrite Hrun. by cbn.
Qed.

Lemma get_pages_free_list_witness :
  mem_ok (state_after [Cnp 0 2]) ∧
  ∃ m', get_pages 70 (state_after [Cnp 0 2])
        = Some (m', take 70 (free_pages (state_after [Cnp 0 2]))
                    ++ replicate (70 - length (free_pages (state_after [Cnp 0 2]))) 255) ∧
    mem_ok m' ∧ free_pages m' = drop 70 (free_pages (state_after [Cnp 0 2])).
Proof.
  split; [exact (mem_ok_state_after _) |].
  exact (get_pages_free_list (state_after [Cnp 0 2]) 70 (mem_ok_state_after _)).
Defined.

(** X10.  A freed page comes back first.  After [deallocate_page(p)] of a
    page number, the next [get_page] returns a page no higher than [p]:
    [p] itself when every lower page is in use, and otherwise a lower page
    that was free before. *)
Theorem dealloc_then_get_page (m : memory) (p : Z) :
  mem_ok m → 0 ≤ p < PAGE_COUNT →
  ∃ m1 m2 r, deallocate_page p m = Some m1 ∧ get_page m1 = Some (m2, r) ∧
    0 ≤ r ≤ p ∧ (full_below p m → r = p) ∧ (r < p → rd m r = Some 0).
Proof.
  intros Hm Hp. unfold deallocate_page.
  destruct (wr_ok m p 0) as [m1 Hw]; [consts; lia |].
  assert (mem_ok m1) as Hm1 by (by eapply mem_ok_wr).
  assert (∀ a, rd m1 a = if decide (a = p) then Some 0 else rd m a) as Hrd
    by (intros a; apply (rd_wr _ _ _ _ a Hm Hw)).
  destruct (get_page_spec m1 Hm1) as [(j & m2 & Hj & Hf & Hleast & _ & Hg) | [Hex _]].
  - exists m1, m2, j. do 2 (split; [done |]).
    assert (j ≤ p) as Hjp.
    { destruct (Z_le_gt_dec j p) as [? | Hgt]; [done |]. exfalso.
      apply (Hleast p); [lia | lia |]. rewrite Hrd. by rewrite decide_True. }
    split; [lia |]. split.
    + intros Hfull. destruct (decide (j = p)) as [? | Hne]; [done |]. exfalso.
      apply (Hfull j); [lia | lia |]. rewrite Hrd in Hf.
      by rewrite decide_False in Hf by done.
    + intros Hlt. rewrite Hrd in Hf. by rewrite decide_False in Hf by lia.
  - exfalso. apply (Hex p); [lia | lia |]. rewrite Hrd. by rewrite decide_True.
Qed.

Lemma dealloc_then_get_page_witness :
  mem_ok (state_after [Cnp 0 5]) ∧ 0 ≤ 3 < PAGE_COUNT ∧
  ∃ m1 m2 r, deallocate_page 3 (state_after [Cnp 0 5]) = Some m1 ∧
    get_page m1 = Some (m2, r) ∧
    0 ≤ r ≤ 3 ∧ (full_below 3 (state_after [Cnp 0 5]) → r = 3) ∧
    (r < 3 → rd (state_after [Cnp 0 5]) r = Some 0).
Proof.
  assert (0 ≤ 3 < PAGE_COUNT) as Hp by (consts; lia).
  split; [exact (mem_ok_state_after _) |]. split; [exact Hp |].
  exact (dealloc_then_get_page (state_after [Cnp 0 5]) 3 (mem_ok_state_after _) Hp).
Defined.

(** * Further properties: addresses and translation *)

(** X11.  Page and offset of an address.  For a page number that is a
    byte, as it is at every call of [get_address] in the source, and an
    offset within a page, the split that [get_physical_addr] applies to a
    virtual address ([>> 8] and [& 255]) gives back the page and the
    offset [get_address] was given; with a page below [PAGE_COUNT] the
    address lies in the array. *)
Theorem get_address_split (page offset : Z) :
  is_byte page → 0 ≤ offset < PAGE_SIZE →
  Z.shiftr (get_address page offset) 8 = page ∧
  Z.land (get_address page offset) 255 = offset ∧
  (page < PAGE_COUNT → in_mem (get_address page offset)).
Proof.
  intros [Hp _] Ho. rewrite get_address_add by done.
  split; [by apply virt_page_of |]. split; [by apply offset_of |].
  intros Hlt. consts. lia.
Qed.

Lemma get_address_split_witness :
  is_byte 63 ∧ 0 ≤ 255 < PAGE_SIZE ∧
  Z.shiftr (get_address 63 255) 8 = 63 ∧
  Z.land (get_address 63 255) 255 = 255 ∧
  (63 < PAGE_COUNT → in_mem (get_address 63 255)).
Proof.
  assert (is_byte 63) as Hp by (consts; lia).
  assert (0 ≤ 255 < PAGE_SIZE) as Ho by (consts; lia).
  split; [exact Hp |]. split; [exact Ho |].
  exact (get_address_split 63 255 Hp Ho).
Defined.

(** X12.  Every address of the array is the address of a page and an
    offset: [a >> 8] is a page number below [PAGE_COUNT], [a & 255] an
    offset within the page, and [get_address] puts them together to
    [a]. *)
Theorem get_address_join (a : Z) :
  in_mem a →
  0 ≤ Z.shiftr a 8 < PAGE_COUNT ∧ 0 ≤ Z.land a 255 < PAGE_SIZE ∧
  get_address (Z.shiftr a 8) (Z.land a 255) = a.
Proof.
  intros Ha. unfold in_mem, MEM_SIZE in Ha.
  rewrite Z.shiftr_div_pow2 by lia. change 255 with (Z.ones 8).
  rewrite Z.land_ones by lia. change (2 ^ 8) with 256.
  pose proof (Z.mod_pos_bound a 256) as Hmod.
  pose proof (Z.div_mod a 256) as Hdiv.
  assert (0 ≤ a `div` 256 < PAGE_COUNT) as Hpage.
  { split; [apply Z.div_pos; lia |].
    apply Z.div_lt_upper_bound; consts; lia. }
  split; [done |]. split; [consts; lia |].
  rewrite get_address_add by (consts; lia). consts. lia.
Qed.

Lemma get_address_join_witness :
  in_mem 16383 ∧
  0 ≤ Z.shiftr 16383 8 < PAGE_COUNT ∧ 0 ≤ Z.land 16383 255 < PAGE_SIZE ∧
  get_address (Z.shiftr 16383 8) (Z.land 16383 255) = 16383.
Proof.
  assert (in_mem 16383) as Ha by (consts; lia).
  split; [exact Ha |]. exact (get_address_join 16383 Ha).
Defined.

(** X13.  Where a translation can point.  When [get_physical_addr]
    returns, the physical address is the entry it read, shifted, with the
    low eight bits of the virtual address: it is below 65536, and it lies
    in the array exactly when the entry is a page number below
    [PAGE_COUNT]. *)
Theorem get_physical_addr_range (m : memory) (p a pa : Z) :
  mem_ok m → get_physical_addr p a m = Some pa →
  ∃ t phys_page,
    get_page_table p m = Some t ∧
    rd m (get_address t (Z.shiftr a 8)) = Some phys_page ∧
    pa = phys_page * PAGE_SIZE + a `mod` PAGE_SIZE ∧
    0 ≤ pa < 65536 ∧
    (in_mem pa ↔ phys_page < PAGE_COUNT).
Proof.
  intros Hm Hpa. unfold get_physical_addr in Hpa.
  destruct (get_page_table p m) as [t |] eqn:Hslot; [| discriminate]. cbn in Hpa.
  destruct (rd m (get_address t (Z.shiftr a 8))) as [phys_page |] eqn:Hentry;
    [| discriminate].
  cbn in Hpa. injection Hpa as <-.
  pose proof (rd_byte _ _ _ Hm Hentry) as Hbyte.
  exists t, phys_page. do 2 (split; [done |]).
  assert (Z.land a 255 = a `mod` PAGE_SIZE) as ->.
  { change 255 with (Z.ones 8). rewrite Z.land_ones by lia. done. }
  pose proof (Z.mod_pos_bound a PAGE_SIZE) as Hmod.
  change (Z.lor (Z.shiftl phys_page 8) (a `mod` PAGE_SIZE))
    with (get_address phys_page (a `mod` PAGE_SIZE)).
  rewrite get_address_add by (consts; lia).
  split; [done |]. consts. split; [lia |]. split; lia.
Qed.

Lemma get_physical_addr_range_witness :
  mem_ok (state_after [Cnp 0 2]) ∧
  get_physical_addr 0 300 (state_after [Cnp 0 2]) = Some 812 ∧
  ∃ t phys_page,
    get_page_table 0 (state_after [Cnp 0 2]) = Some t ∧
    rd (state_after [Cnp 0 2]) (get_address t (Z.shiftr 300 8)) = Some phys_page ∧
    812 = phys_page * PAGE_SIZE + 300 `mod` PAGE_SIZE ∧
    0 ≤ 812 < 65536 ∧
    (in_mem 812 ↔ phys_page < PAGE_COUNT).
Proof.
  assert (get_physical_addr 0 300 (state_after [Cnp 0 2]) = Some 812) as Hpa
    by (vm_compute; reflexivity).
  split; [exact (mem_ok_state_after _) |]. split; [exact Hpa |].
  exact (get_physical_addr_range _ 0 300 812 (mem_ok_state_after _) Hpa).
Defined.

(** X14.  A store through an unmapped entry lands in page zero.  When the
    page-table entry of virtual page [v] is 0, an address at offset [o] of
    that page translates to physical address [o]: [store_value] then
    writes byte [o] of page zero, a usage byte when [o < PAGE_COUNT], and
    a zero stored there makes page [o] free. *)
Theorem store_unmapped_hits_page_zero (m : memory) (p t v o x : Z) :
  mem_ok m → get_page_table p m = Some t → 0 ≤ t →
  0 ≤ v < PAGE_SIZE → get_phys_page t v m = Some 0 → 0 ≤ o < PAGE_SIZE →
  get_physical_addr p (v * PAGE_SIZE + o) m = Some o ∧
  ∃ m', store_value p (v * PAGE_SIZE + o) x m = Some (m', o) ∧
    rd m' o = Some (x `mod` 256) ∧
    (o < PAGE_COUNT → x `mod` 256 = 0 → o ∈ free_pages m').
Proof.
  intros Hm Hslot Ht Hv Hentry Ho.
  assert (get_physical_addr p (v * PAGE_SIZE + o) m = Some o) as Hpa.
  { unfold get_physical_addr. rewrite Hslot. cbn.
    rewrite virt_page_of, offset_of by done.
    rewrite get_address_add by done.
    unfold get_phys_page in Hentry. rewrite Hentry. cbn.
    change (Z.lor (Z.shiftl 0 8) o) with (get_address 0 o).
    by rewrite get_address_0. }
  split; [done |].
  destruct (wr_ok m o x) as [m' Hw]; [consts; lia |].
  exists m'. unfold store_value. rewrite Hpa. cbn. rewrite Hw. cbn.
  split; [done |].
  pose proof (rd_wr_eq _ _ _ _ Hm Hw) as Hrd. split; [done |].
  intros Ho64 Hx. apply free_pages_elem. split; [lia | congruence].
Qed.

Lemma store_unmapped_hits_page_zero_witness :
  mem_ok (state_after [Cnp 0 2]) ∧
  get_page_table 0 (state_after [Cnp 0 2]) = Some 1 ∧ 0 ≤ 1 ∧
  0 ≤ 2 < PAGE_SIZE ∧ get_phys_page 1 2 (state_after [Cnp 0 2]) = Some 0 ∧
  0 ≤ 3 < PAGE_SIZE ∧
  get_physical_addr 0 (2 * PAGE_SIZE + 3) (state_after [Cnp 0 2]) = Some 3 ∧
  ∃ m', store_value 0 (2 * PAGE_SIZE + 3) 0 (state_after [Cnp 0 2]) = Some (m', 3) ∧
    rd m' 3 = Some (0 `mod` 256) ∧
    (3 < PAGE_COUNT → 0 `mod` 256 = 0 → 3 ∈ free_pages m').
Proof.
  assert (get_page_table 0 (state_after [Cnp 0 2]) = Some 1) as Hslot
    by (vm_compute; reflexivity).
  assert (0 ≤ 1) as Ht by lia.
  assert (0 ≤ 2 < PAGE_SIZE) as Hv by (consts; lia).
  assert (get_phys_page 1 2 (state_after [Cnp 0 2]) = Some 0) as Hentry
    by (vm_compute; reflexivity).
  assert (0 ≤ 3 < PAGE_SIZE) as Ho by (consts; lia).
  split; [exact (mem_ok_state_after _) |]. split; [exact Hslot |].
  split; [exact Ht |]. split; [exact Hv |]. split; [exact Hentry |].
  split; [exact Ho |].
  exact (store_unmapped_hits_page_zero _ 0 1 2 3 0 (mem_ok_state_after _)
           Hslot Ht Hv Hentry Ho).
Defined.

(** * Further properties: the reports *)

Lemma pfm_loop_marks rem i m :
  mem_ok m → 0 ≤ i → i + Z.of_nat rem ≤ PAGE_COUNT →
  pfm_loop rem i m
  = Some (foldr (λ j s, String (page_mark m j)
                          ((if bool_decide (Z.rem (j + 1) 16 = 0) then nl else "")
                           +:+ s))
                "" (seqZ i (Z.of_nat rem))).
Proof.
  intros Hm. revert i. induction rem as [| rem IH]; intros i Hi Hle; [done |].
  cbn [pfm_loop]. rewrite get_address_0.
  destruct (rd_ok m i Hm) as (b & Hb & _); [consts; lia |].
  rewrite Hb. cbn. rewrite IH by lia. cbn.
  rewrite (seqZ_cons i) by lia. cbn [foldr].
  replace (Z.pred (Z.of_nat (S rem))) with (Z.of_nat rem) by lia.
  replace (Z.succ i) with (i + 1) by lia.
  do 2 f_equal. unfold free_map_cell, page_mark. rewrite Hb.
  destruct (decide (b = 0)) as [-> | Hnz].
  - by rewrite bool_decide_eq_true_2, decide_True.
  - rewrite bool_decide_eq_false_2 by done. rewrite decide_False; [done | congruence].
Qed.

(** X15.  The free map.  [print_page_free_map] prints the header line and
    four lines of sixteen marks, one mark for each page in ascending
    order: [.] for a page whose usage byte is 0, [#] for any other. *)
Theorem print_page_free_map_rows (m : memory) :
  mem_ok m →
  print_page_free_map m
  = Some ("--- PAGE FREE MAP ---" +:+ nl
          +:+ free_map_row m 0 +:+ nl +:+ free_map_row m 1 +:+ nl
          +:+ free_map_row m 2 +:+ nl +:+ free_map_row m 3 +:+ nl).
Proof.
  intros Hm. unfold print_page_free_map.
  rewrite (pfm_loop_marks 64 0 m Hm) by (consts; lia).
  unfold free_map_row. generalize (page_mark m). intros mark.
  vm_compute. reflexivity.
Qed.

Lemma print_page_free_map_rows_witness :
  mem_ok (state_after [Cnp 0 2]) ∧
  print_page_free_map (state_after [Cnp 0 2])
  = Some ("--- PAGE FREE MAP ---" +:+ nl
          +:+ free_map_row (state_after [Cnp 0 2]) 0 +:+ nl
          +:+ free_map_row (state_after [Cnp 0 2]) 1 +:+ nl
          +:+ free_map_row (state_after [Cnp 0 2]) 2 +:+ nl
          +:+ free_map_row (state_after [Cnp 0 2]) 3 +:+ nl).
Proof.
  split; [exact (mem_ok_state_after _) |].
  exact (print_page_free_map_rows _ (mem_ok_state_after _)).
Defined.

Lemma ppt_loop_blank t rem i m :
  (∀ u, i ≤ u < i + Z.of_nat rem → rd m (get_address t u) = Some 0) →
  ppt_loop rem t i m = Some "".
Proof.
  revert i. induction rem as [| rem IH]; intros i Hzero; [done |].
  cbn [ppt_loop]. rewrite Hzero by lia. cbn.
  rewrite IH by (intros u Hu; apply Hzero; lia). done.
Qed.

Lemma ppt_loop_lines t ds :
  ∀ rem i m,
    (length ds ≤ rem)%nat →
    (∀ (k : nat) d, ds !! k = Some d →
                    rd m (get_address t (i + Z.of_nat k)) = Some d ∧ d ≠ 0) →
    (∀ u, i + Z.of_nat (length ds) ≤ u < i + Z.of_nat rem →
          rd m (get_address t u) = Some 0) →
    ppt_loop rem t i m = Some (mapping_lines i ds).
Proof.
  induction ds as [| d ds IH]; intros rem i m Hlen Hent Hzero.
  - apply ppt_loop_blank. intros u Hu. apply Hzero. cbn. lia.
  - destruct rem as [| rem]; [cbn in Hlen; lia |].
    cbn [ppt_loop mapping_lines].
    destruct (Hent 0%nat d eq_refl) as [Hd Hnz].
    replace (i + Z.of_nat 0) with i in Hd by lia. rewrite Hd. cbn.
    rewrite bool_decide_eq_true_2 by done.
    rewrite (IH rem (i + 1) m).
    + done.
    + cbn in Hlen. lia.
    + intros k d' Hk. destruct (Hent (S k) d' Hk) as [Hd' Hnz'].
      by replace (i + 1 + Z.of_nat k) with (i + Z.of_nat (S k)) by lia.
    + intros u Hu. apply Hzero. cbn [length]. lia.
Qed.

(** X16.  The page table of a process.  For a process that owns its
    pages, with no more than [PAGE_COUNT] of them and zero in the entries
    after them, [print_page_table] prints the header line with the process
    number and one line for each virtual page, in ascending order, with
    the virtual and the physical page in two hexadecimal digits each. *)
Theorem print_page_table_owner (m : memory) (p t : Z) (ds : list Z) :
  mem_ok m → owns p t ds m →
  Z.of_nat (length ds) ≤ PAGE_COUNT →
  (∀ u, Z.of_nat (length ds) ≤ u < PAGE_COUNT →
        rd m (t * PAGE_SIZE + u) = Some 0) →
  print_page_table p m
  = Some (("--- PROCESS " +:+ pretty p +:+ " PAGE TABLE ---" +:+ nl)
          +:+ mapping_lines 0 ds).
Proof.
  intros Hm (Hp & Ht & Hslot & _ & _ & Hent) Hlen Hzero.
  unfold print_page_table. rewrite Hslot. cbn.
  rewrite (ppt_loop_lines t ds (Z.to_nat PAGE_COUNT) 0 m); [done | lia | |].
  - intros k d Hk. destruct (Hent k d Hk) as (Hd & Hdr & _).
    pose proof (lookup_lt_Some _ _ _ Hk) as Hklt.
    rewrite get_address_add by (consts; lia). split; [done | lia].
  - intros u Hu. rewrite get_address_add by (consts; lia).
    apply Hzero. consts. lia.
Qed.

Lemma print_page_table_owner_witness :
  mem_ok (state_after [Cnp 0 2]) ∧ owns 0 1 [2; 3] (state_after [Cnp 0 2]) ∧
  Z.of_nat (length [2; 3]) ≤ PAGE_COUNT ∧
  (∀ u, Z.of_nat (length [2; 3]) ≤ u < PAGE_COUNT →
        rd (state_after [Cnp 0 2]) (1 * PAGE_SIZE + u) = Some 0) ∧
  print_page_table 0 (state_after [Cnp 0 2])
  = Some (("--- PROCESS " +:+ pretty 0 +:+ " PAGE TABLE ---" +:+ nl)
          +:+ mapping_lines 0 [2; 3]).
Proof.
  assert (Z.of_nat (length [2; 3]) ≤ PAGE_COUNT) as Hlen by (cbn; consts; lia).
  assert (∀ u, Z.of_nat (length [2; 3]) ≤ u < PAGE_COUNT →
               rd (state_after [Cnp 0 2]) (1 * PAGE_SIZE + u) = Some 0) as Hzero.
  { assert (new_process 0 2 initialize_mem = Some (state_after [Cnp 0 2], NpDone))
      as Hnp by (vm_compute; reflexivity).
    assert (proc_in_zero_page 0) as Hp by (unfold proc_in_zero_page; consts; lia).
    assert (free_pages initialize_mem = 1 :: seqZ 2 62) as Hfree
      by (vm_compute; reflexivity).
    destruct (new_process_exact initialize_mem 0 2 1 (seqZ 2 62)
                mem_ok_initialize_mem rd_initialize_mem_0 Hp Hfree)
      as (_ & _ & _ & m' & Hrun & _ & _ & _ & _ & _ & Hframe).
    rewrite Hrun in Hnp. injection Hnp as ->.
    intros u Hu. cbn in Hu. rewrite Hframe.
    - rewrite rd_initialize_mem by (consts; lia).
      by rewrite decide_False by (consts; lia).
    - consts. lia.
    - consts. lia.
    - intros Hin. apply elem_of_take in Hin as (i & Hi & _).
      apply lookup_seqZ in Hi. consts. lia.
    - rewrite length_take, length_seqZ. consts. lia. }
  split; [exact (mem_ok_state_after _) |]. split; [exact owns_after_np_0_2 |].
  split; [exact Hlen |]. split; [exact Hzero |].
  exact (print_page_table_owner _ 0 1 [2; 3] (mem_ok_state_after _)
           owns_after_np_0_2 Hlen Hzero).
Defined.

(** * Further properties: [main] *)

Lemma main_loop_run atoi n :
  ∀ args m m' out,
    (length args ≤ n)%nat →
    main_loop atoi args m = Some (m', out) →
    run (commands_of atoi args) m = Some m'.
Proof.
  induction n as [| n IH]; intros args m m' out Hlen Hmain.
  - destruct args; [| cbn in Hlen; lia]. cbn in Hmain. by injection Hmain as <- _.
  - destruct args as [| word rest]; [cbn in Hmain; by injection Hmain as <- _ |].
    cbn [length] in Hlen. cbn [main_loop commands_of] in *.
    repeat case_bool_decide.
    + destruct rest as [| a1 [| a2 rest']]; try discriminate.
      destruct (new_process (atoi a1) (atoi a2) m) as [[m1 e] |] eqn:Hnp;
        [| discriminate].
      cbn in Hmain.
      destruct (main_loop atoi rest' m1) as [[m2 out2] |] eqn:Hrest; [| discriminate].
      cbn in Hmain. injection Hmain as <- _.
      cbn [run exec]. rewrite Hnp. cbn.
      apply (IH rest' m1 m2 out2); [cbn in Hlen; lia | done].
    + destruct (print_page_free_map m) as [text |]; [| discriminate]. cbn in Hmain.
      destruct (main_loop atoi rest m) as [[m2 out2] |] eqn:Hrest; [| discriminate].
      cbn in Hmain. injection Hmain as <- _.
      apply (IH rest m m2 out2); [lia | done].
    + destruct rest as [| a1 rest']; try discriminate.
      destruct (print_page_table (atoi a1) m) as [text |]; [| discriminate].
      cbn in Hmain.
      destruct (main_loop atoi rest' m) as [[m2 out2] |] eqn:Hrest; [| discriminate].
      cbn in Hmain. injection Hmain as <- _.
      apply (IH rest' m m2 out2); [cbn in Hlen; lia | done].
    + destruct rest as [| a1 rest']; try discriminate.
      destruct (kill_process (atoi a1) m) as [m1 |] eqn:Hkill; [| discriminate].
      cbn in Hmain. cbn [run exec]. rewrite Hkill. cbn.
      apply (IH rest' m1 m' out); [cbn in Hlen; lia | done].
    + destruct rest as [| a1 [| a2 [| a3 rest']]]; try discriminate.
      destruct (store_value (atoi a1) (atoi a2) (atoi a3) m) as [[m1 pa] |] eqn:Hst;
        [| discriminate].
      cbn in Hmain.
      destruct (main_loop atoi rest' m1) as [[m2 out2] |] eqn:Hrest; [| discriminate].
      cbn in Hmain. injection Hmain as <- _.
      cbn [run exec]. rewrite Hst. cbn.
      apply (IH rest' m1 m2 out2); [cbn in Hlen; lia | done].
    + destruct rest as [| a1 [| a2 rest']]; try discriminate.
      destruct (load_value (atoi a1) (atoi a2) m) as [[pa b] |] eqn:Hld;
        [| discriminate].
      cbn in Hmain.
      destruct (main_loop atoi rest' m) as [[m2 out2] |] eqn:Hrest; [| discriminate].
      cbn in Hmain. injection Hmain as <- _.
      cbn [run exec]. rewrite Hld. cbn.
      apply (IH rest' m m2 out2); [cbn in Hlen; lia | done].
    + apply (IH rest m m' out); [lia | done].
Qed.

(** X17.  What [main] does to the array.  Whatever [atoi] reads from the
    words: with [argc == 1] a run that returns has exit status 1, has
    printed nothing on the standard output and has not touched the array;
    otherwise it has exit status 0 and the array is the one the commands
    among the words, run in order on the initial memory, produce.  The two
    reports and the words that are no command change nothing. *)
Theorem main_runs_commands (atoi : string → Z) (argv : list string)
    (r : run_result) :
  main atoi argv = Some r →
  (length argv = 1%nat ∧ exit_status r = 1 ∧ stdout r = "" ∧
   final_mem r = zero_mem)
  ∨ (length argv ≠ 1%nat ∧ exit_status r = 0 ∧ stderr r = "" ∧
     run (commands_of atoi (drop 1 argv)) initialize_mem = Some (final_mem r)).
Proof.
  unfold main. intros Hmain. case_bool_decide as Hargc.
  - injection Hmain as <-. by left.
  - destruct (main_loop atoi (drop 1 argv) initialize_mem) as [[m out] |] eqn:Hloop;
      [| discriminate].
    cbn in Hmain. injection Hmain as <-. right. cbn.
    do 3 (split; [done |]).
    by apply (main_loop_run atoi (length (drop 1 argv)) _ _ _ out).
Qed.

Lemma main_runs_commands_witness :
  ∃ r,
    main atoi_decimal ["ptsim"; "np"; "0"; "2"; "pfm"; "sb"; "0"; "0"; "42";
                       "lb"; "0"; "0"; "what"; "kp"; "0"; "ppt"; "0"] = Some r ∧
    ((length ["ptsim"; "np"; "0"; "2"; "pfm"; "sb"; "0"; "0"; "42";
              "lb"; "0"; "0"; "what"; "kp"; "0"; "ppt"; "0"] = 1%nat ∧
      exit_status r = 1 ∧ stdout r = "" ∧ final_mem r = zero_mem)
     ∨ (length ["ptsim"; "np"; "0"; "2"; "pfm"; "sb"; "0"; "0"; "42";
                "lb"; "0"; "0"; "what"; "kp"; "0"; "ppt"; "0"] ≠ 1%nat ∧
        exit_status r = 0 ∧ stderr r = "" ∧
        run (commands_of atoi_decimal
               (drop 1 ["ptsim"; "np"; "0"; "2"; "pfm"; "sb"; "0"; "0"; "42";
                        "lb"; "0"; "0"; "what"; "kp"; "0"; "ppt"; "0"]))
            initialize_mem = Some (final_mem r))).
Proof.
  eexists. split; [vm_compute; reflexivity |].
  refine (main_runs_commands atoi_decimal _ _ _). vm_compute. reflexivity.
Defined.

(** The scenario of the specification, from the command line. *)
Example scenario_main :
  stdout <$> main atoi_decimal ["ptsim"; "np"; "0"; "2"; "ppt"; "0";
                                "sb"; "0"; "0"; "42"; "lb"; "0"; "0"]
  = Some ("--- PROCESS 0 PAGE TABLE ---" +:+ nl
          +:+ "00 -> 02" +:+ nl +:+ "01 -> 03" +:+ nl
          +:+ "Store proc 0: 0 => 512, value=42" +:+ nl
          +:+ "Load proc 0: 0 => 512, value=42" +:+ nl).
Proof. vm_compute. reflexivity. Qed.

(** * Further properties: what a new process finds in its pages *)

(** X18.  Data pages are handed out as they are.  On a memory with page
    0 in use, [new_process(p, n)] for a process number [p] whose slot lies
    in page zero does not clear the pages it maps: a load through the new
    process from offset [o] of its virtual page [i] prints the byte that
    was at offset [o] of the page before the process was created. *)
Theorem new_process_keeps_old_data (m m' : memory) (p n t : Z) (fs : list Z)
    (e : np_exit) (i : nat) (d o b : Z) :
  mem_ok m → rd m 0 ≠ Some 0 → proc_in_zero_page p →
  free_pages m = t :: fs →
  new_process p n m = Some (m', e) →
  take (Z.to_nat n) fs !! i = Some d → 0 ≤ o < PAGE_SIZE →
  rd m (d * PAGE_SIZE + o) = Some b →
  load_value p (Z.of_nat i * PAGE_SIZE + o) m' = Some (d * PAGE_SIZE + o, b).
Proof.
  intros Hm H0 Hp Hfree Hnp Hi Ho Hb.
  destruct (new_process_owns _ _ _ _ _ _ _ Hm H0 Hp Hfree Hnp) as [Hown _].
  destruct (new_process_exact m p n t fs Hm H0 Hp Hfree)
    as (Ht & _ & Hfs & m'' & Hrun & _ & _ & _ & _ & _ & Hframe).
  rewrite Hrun in Hnp. injection Hnp as <- _.
  rewrite (load_mapped _ _ _ _ _ _ _ Hown Hi Ho).
  assert (t < d < PAGE_COUNT) as Hd.
  { apply lookup_take_Some in Hi as [Hi _]. apply list_elem_of_lookup_2 in Hi.
    by apply (proj1 (Forall_forall _ _) Hfs) in Hi as [? _]. }
  destruct Hp as [Hp0 Hp1].
  rewrite Hframe.
  - by rewrite Hb.
  - consts. lia.
  - consts. lia.
  - intros Hin. apply elem_of_take in Hin as (k & Hk & _).
    apply list_elem_of_lookup_2 in Hk.
    apply (proj1 (Forall_forall _ _) Hfs) in Hk as [? _]. consts. lia.
  - rewrite length_take. pose proof (free_pages_length m) as Hlen.
    rewrite Hfree in Hlen. cbn in Hlen. consts. lia.
Qed.

Lemma new_process_keeps_old_data_witness :
  mem_ok (state_after [Cnp 0 2; Csb 0 5 77; Ckp 0]) ∧
  rd (state_after [Cnp 0 2; Csb 0 5 77; Ckp 0]) 0 ≠ Some 0 ∧
  proc_in_zero_page 9 ∧
  free_pages (state_after [Cnp 0 2; Csb 0 5 77; Ckp 0]) = 1 :: seqZ 2 62 ∧
  new_process 9 1 (state_after [Cnp 0 2; Csb 0 5 77; Ckp 0])
    = Some (state_after [Cnp 0 2; Csb 0 5 77; Ckp 0; Cnp 9 1], NpDone) ∧
  take (Z.to_nat 1) (seqZ 2 62) !! 0%nat = Some 2 ∧ 0 ≤ 5 < PAGE_SIZE ∧
  rd (state_after [Cnp 0 2; Csb 0 5 77; Ckp 0]) (2 * PAGE_SIZE + 5) = Some 77 ∧
  load_value 9 (Z.of_nat 0 * PAGE_SIZE + 5)
    (state_after [Cnp 0 2; Csb 0 5 77; Ckp 0; Cnp 9 1])
  = Some (2 * PAGE_SIZE + 5, 77).
Proof.
  assert (rd (state_after [Cnp 0 2; Csb 0 5 77; Ckp 0]) 0 ≠ Some 0) as H0.
  { intros H. vm_compute in H. discriminate. }
  assert (proc_in_zero_page 9) as Hp by (unfold proc_in_zero_page; consts; lia).
  assert (free_pages (state_after [Cnp 0 2; Csb 0 5 77; Ckp 0]) = 1 :: seqZ 2 62)
    as Hfree by (vm_compute; reflexivity).
  assert (new_process 9 1 (state_after [Cnp 0 2; Csb 0 5 77; Ckp 0])
          = Some (state_after [Cnp 0 2; Csb 0 5 77; Ckp 0; Cnp 9 1], NpDone))
    as Hnp by (vm_compute; reflexivity).
  assert (take (Z.to_nat 1) (seqZ 2 62) !! 0%nat = Some 2) as Hi by reflexivity.
  assert (0 ≤ 5 < PAGE_SIZE) as Ho by (consts; lia).
  assert (rd (state_after [Cnp 0 2; Csb 0 5 77; Ckp 0]) (2 * PAGE_SIZE + 5) = Some 77)
    as Hb by (vm_compute; reflexivity).
  split; [exact (mem_ok_state_after _) |]. split; [exact H0 |].
  split; [exact Hp |]. split; [exact Hfree |]. split; [exact Hnp |].
  split; [exact Hi |]. split; [exact Ho |]. split; [exact Hb |].
  exact (new_process_keeps_old_data _ _ 9 1 1 (seqZ 2 62) NpDone 0 2 5 77
           (mem_ok_state_after _) H0 Hp Hfree Hnp Hi Ho Hb).
Defined.

(** * Further properties: a slot that names no page *)

(** X19.  No check of the page table.  When the slot of a process holds a
    byte that is no page number of the array (64 or more, as a store
    through an unmapped entry can leave there), [kill_process],
    [print_page_table] and the translation of every virtual address in
    [0, 65536) read outside the array. *)
Theorem bad_slot_reads_outside (m : memory) (p t : Z) :
  get_page_table p m = Some t → PAGE_COUNT ≤ t →
  kill_process p m = None ∧ print_page_table p m = None ∧
  ∀ a, 0 ≤ a < 65536 →
       get_physical_addr p a m = None ∧ load_value p a m = None ∧
       ∀ x, store_value p a x m = None.
Proof.
  intros Hslot Ht.
  assert (∀ v, 0 ≤ v < PAGE_SIZE → rd m (get_address t v) = None) as Hout.
  { intros v Hv. rewrite get_address_add by (consts; lia).
    unfold rd. rewrite bool_decide_eq_false_2; [done |]. consts. lia. }
  split; [| split].
  - unfold kill_process. rewrite Hslot.
    change (Z.to_nat PAGE_COUNT) with (S 63). cbn [mbind option_bind kp_loop].
    rewrite (Hout 0) by (consts; lia). done.
  - unfold print_page_table. rewrite Hslot.
    change (Z.to_nat PAGE_COUNT) with (S 63). cbn [mbind option_bind ppt_loop].
    rewrite (Hout 0) by (consts; lia). done.
  - intros a Ha.
    assert (get_physical_addr p a m = None) as Hpa.
    { unfold get_physical_addr. rewrite Hslot. cbn. rewrite Hout; [done |].
      rewrite Z.shiftr_div_pow2 by lia. change (2 ^ 8) with 256.
      split; [apply Z.div_pos; lia |].
      apply Z.div_lt_upper_bound; consts; lia. }
    split; [done |]. unfold load_value, store_value. by rewrite Hpa.
Qed.

Lemma bad_slot_reads_outside_witness :
  get_page_table 0 (state_after [Csb 0 576 200]) = Some 200 ∧
  PAGE_COUNT ≤ 200 ∧
  kill_process 0 (state_after [Csb 0 576 200]) = None ∧
  print_page_table 0 (state_after [Csb 0 576 200]) = None ∧
  ∀ a, 0 ≤ a < 65536 →
       get_physical_addr 0 a (state_after [Csb 0 576 200]) = None ∧
       load_value 0 a (state_after [Csb 0 576 200]) = None ∧
       ∀ x, store_value 0 a x (state_after [Csb 0 576 200]) = None.
Proof.
  assert (get_page_table 0 (state_after [Csb 0 576 200]) = Some 200) as Hslot
    by (vm_compute; reflexivity).
  assert (PAGE_COUNT ≤ 200) as Ht by (consts; lia).
  split; [exact Hslot |]. split; [exact Ht |].
  exact (bad_slot_reads_outside _ 0 200 Hslot Ht).
Defined.
